(** * Tile server and dashboard of the buildings viewer: a shallow embedding

    The development follows [Streamlit/tile_server.py] (tile arithmetic, the
    tile endpoint, the view-state endpoints) and [Streamlit/app.py] (the
    polling dashboard with its memoised statistics query).

    - Python [int] is [Z]; Python [float] is IEEE binary64, taken from the
      Standard Library's [SpecFloat] (precision 53, maximal exponent 1024);
    - parsed JSON documents are the inductive [json]; a Python [dict] with
      string keys is a [gmap string json];
    - an exception is a value of [exn]; code that may raise returns a
      [result];
    - the DuckDB store is an environment record whose operations may raise;
    - request handlers that touch module-level state take and return it. *)

From Stdlib Require Import ZArith Lia Bool Reals Lra.
From Stdlib Require Import Floats.SpecFloat.
From stdpp Require Import base option list gmap strings relations.

#[local] Set Warnings "-register-all".
#[local] Open Scope Z_scope.

(** ** Python values and exceptions *)

Inductive exn : Type :=
  | OverflowError
  | ZeroDivisionError
  | TypeError
  | AttributeError
  | StoreError (msg : string).

Inductive result (A : Type) : Type :=
  | Ok (a : A)
  | Raise (e : exn).
Arguments Ok {A} a.
Arguments Raise {A} e.

#[global] Instance result_ret : MRet result := fun _ a => Ok a.
#[global] Instance result_bind : MBind result := fun _ _ k r =>
  match r with
  | Ok a => k a
  | Raise e => Raise e
  end.

Definition float := spec_float.

(** What [json.loads] builds: [None], [bool], [int], [float], [str], [list]
    and [dict]. *)
Inductive json : Type :=
  | JNull
  | JBool (b : bool)
  | JInt (n : Z)
  | JFloat (f : float)
  | JStr (s : string)
  | JArr (l : list json)
  | JObj (m : gmap string json).

(** Python truth value, as [not bounds] tests it. *)
Definition truthy (v : json) : bool :=
  match v with
  | JNull => false
  | JBool b => b
  | JInt n => negb (n =? 0)
  | JFloat (S754_zero _) => false
  | JFloat _ => true
  | JStr s => negb (String.eqb s "")
  | JArr l => negb (bool_decide (l = []))
  | JObj m => negb (bool_decide (m = ∅))
  end.

(** [d.get(k)]: the entry, [None] when the key is absent. *)
Definition dict_get (m : gmap string json) (k : string) : json :=
  default JNull (m !! k).

(** [d.get(k, dflt)]. *)
Definition dict_get_default (m : gmap string json) (k : string) (dflt : json) : json :=
  default dflt (m !! k).

(** [obj.get(k)] on an arbitrary value: only a [dict] has the method. *)
Definition py_get (obj : json) (k : string) : result json :=
  match obj with
  | JObj m => Ok (dict_get m k)
  | _ => Raise AttributeError
  end.

(** [obj[k] = v] with a string key: item assignment succeeds on a [dict]
    only ([list] wants an integer index, the other values are immutable). *)
Definition py_setitem (obj : json) (k : string) (v : json) : result json :=
  match obj with
  | JObj m => Ok (JObj (<[k := v]> m))
  | _ => Raise TypeError
  end.

(** ** HTTP responses *)

Inductive payload : Type :=
  | Bytes (b : list Byte.byte)
  | Json (j : json)
  | Text (s : string).

Record response : Type := Response {
  body : payload;
  status : Z;
  mimetype : string;
  headers : gmap string string
}.

(** [flask.jsonify(obj)], optionally returned with a status code. *)
Definition jsonify (j : json) (code : Z) : response :=
  Response (Json j) code "application/json" ∅.

(** ** The view-state register ([tile_server.py])

    [current_stats] is a module-level dictionary; the handlers read and
    write its ['bounds'] entry. *)
Module Register.

Definition current_stats_init : gmap string json :=
  {[ "count" := JInt 0; "area" := JInt 0; "bounds" := JNull ]}.

Definition error_body : json :=
  JObj {[ "status" := JStr "error"; "message" := JStr "No bounds provided" ]}.

Definition ok_body : json := JObj {[ "status" := JStr "ok" ]}.

(** [update_view], on the parsed request body [data] and the current
    [current_stats]; returns the response (or the exception that leaves
    the handler) and the new [current_stats]. *)
Definition update_view (data : json) (current_stats : gmap string json)
  : result response * gmap string json :=
  match py_get data "bounds" with
  | Raise e => (Raise e, current_stats)
  | Ok bounds =>
    match py_get data "zoom" with
    | Raise e => (Raise e, current_stats)
    | Ok zoom =>
      if negb (truthy bounds) then
        (Ok (jsonify error_body 400), current_stats)
      else
        match py_setitem bounds "zoom" zoom with
        | Raise e => (Raise e, current_stats)
        | Ok bounds' =>
          (Ok (jsonify ok_body 200), <["bounds" := bounds']> current_stats)
        end
    end
  end.

(** [get_bounds]. *)
Definition get_bounds (current_stats : gmap string json) : response :=
  jsonify (JObj {[ "bounds" := dict_get current_stats "bounds" ]}) 200.

(** The server processing a sequence of [/update-view] bodies in order. *)
Definition run_updates (reqs : list json) (current_stats : gmap string json)
  : gmap string json :=
  foldl (fun cs data => snd (update_view data cs)) current_stats reqs.

(** A request that gets the acknowledgment, and the value it stores. *)
Definition accepted (data : json) : option json :=
  match data with
  | JObj m =>
    match dict_get m "bounds" with
    | JObj b =>
      if bool_decide (b = ∅) then None
      else Some (JObj (<["zoom" := dict_get m "zoom"]> b))
    | _ => None
    end
  | _ => None
  end.

(** The value stored by the last accepted request of a history. *)
Definition last_accepted (reqs : list json) : option json :=
  last (omap accepted reqs).

End Register.

(** ** Python [float] arithmetic

    CPython's [float] is the platform's binary64 with round-to-nearest-even;
    [+], [-], [*] never raise, [/] raises on a zero divisor, [**] raises on
    overflow, and an [int] operand is first converted (which raises when the
    integer is beyond the binary64 range). *)
Module PyFloat.

Definition prec : Z := 53.
Definition emax : Z := 1024.

(** The binary64 nearest to [m * 2^e] (ties to even; an infinity beyond
    the range). *)
Definition nearest (m e : Z) : float := binary_normalize prec emax m e false.

(** [float(i)] as the arithmetic operators do it for an [int] operand:
    [OverflowError] from [2^1024 - 2^970] on, where rounding would leave
    the finite range. *)
Definition of_int (i : Z) : result float :=
  if 2 ^ 1024 - 2 ^ 970 <=? Z.abs i then Raise OverflowError
  else Ok (nearest i 0).

Definition is_zero (f : float) : bool :=
  match f with
  | S754_zero _ => true
  | _ => false
  end.

Definition mul : float -> float -> float := SFmul prec emax.
Definition sub : float -> float -> float := SFsub prec emax.

(** [a / b] on two floats. *)
Definition div (a b : float) : result float :=
  if is_zero b then Raise ZeroDivisionError else Ok (SFdiv prec emax a b).

(** [2.0 ** z] for an [int] exponent: the power of two itself while it is
    a binary64 number, [OverflowError] from [z = 1024] on. *)
Definition pow2 (z : Z) : result float :=
  if 1024 <=? z then Raise OverflowError else Ok (nearest 1 z).


Definition f360 : float := Eval vm_compute in nearest 360 0.
Definition f180 : float := Eval vm_compute in nearest 180 0.
Definition one : float := Eval vm_compute in nearest 1 0.


(** [math.pi], the binary64 number [0x400921FB54442D18]. *)
Definition pi : float := S754_finite false 7074237752028440 (-51).

(** [math.degrees(x)] is [x * (180.0 / pi)], the factor computed once. *)
Definition radToDeg : float := Eval vm_compute in SFdiv prec emax f180 pi.
Definition degrees (x : float) : float := mul x radToDeg.

End PyFloat.

(** [math.sinh] and [math.atan] hand their argument to the platform's C
    library.  Binary64 does not fix the results of these two functions, so
    they are an interface, and what is proved holds for every C library.
    [math.sinh] raises [OverflowError] when the C function overflows; that
    needs an argument beyond 710 in magnitude, and for a tile inside the
    grid the argument lies between [-pi] and [pi], so the range error is
    left out. *)
Class Libm : Type := {
  math_sinh : float -> float;
  math_atan : float -> float
}.

(** ** Tiles ([tile_server.py]) *)
Module Tiles.
Import PyFloat.

Definition bbox : Type := float * float * float * float.

Definition min_lon (b : bbox) : float := b.1.1.1.
Definition min_lat (b : bbox) : float := b.1.1.2.
Definition max_lon (b : bbox) : float := b.1.2.
Definition max_lat (b : bbox) : float := b.2.

Section WithLibm.
Context {libm : Libm}.

(** [tile_to_bbox]. *)
Definition tile_to_bbox (z x y : Z) : result bbox :=
  n ← pow2 z;
  xf ← of_int x;
  q ← div xf n;
  let min_lon := sub (mul q f360) f180 in
  xf1 ← of_int (x + 1);
  q1 ← div xf1 n;
  let max_lon := sub (mul q1 f360) f180 in
  yf ← of_int (2 * y);
  r ← div yf n;
  let lat_rad := math_atan (math_sinh (mul pi (sub one r))) in
  let max_lat := degrees lat_rad in
  yf1 ← of_int (2 * (y + 1));
  r1 ← div yf1 n;
  let lat_rad := math_atan (math_sinh (mul pi (sub one r1))) in
  let min_lat := degrees lat_rad in
  mret (min_lon, min_lat, max_lon, max_lat).

End WithLibm.

(** *** The store

    A DuckDB connection and a cursor are handles; every operation on the
    store either returns or raises. *)
Definition conn : Type := N.
Definition cursor : Type := N.

(** The SQL text of [get_tile] is the fixed [ST_AsMVT] query with seven
    values interpolated: the tile address and its bounding box. *)
Record tile_query : Type := TileQuery {
  q_z : Z; q_x : Z; q_y : Z;
  q_min_lon : float; q_min_lat : float; q_max_lon : float; q_max_lat : float
}.

Record store : Type := Store {
  (** [duckdb.connect(DB_FILE, read_only=True)] *)
  connect : result conn;
  (** [con.execute("LOAD spatial;")] *)
  load_spatial : conn -> result unit;
  (** [con.cursor()] *)
  open_cursor : conn -> result cursor;
  (** [cursor.execute(query).fetchone()]: no row, or a row whose single
      column is NULL or a blob *)
  fetchone : cursor -> tile_query -> result (option (option (list Byte.byte)))
}.

Inductive log_line : Type :=
  | LogTiming (z x y : Z) (size : nat)
  | LogError (z x y : Z) (e : exn)
  | LogTraceback (e : exn).

(** What a request does besides answering, in order. *)
Inductive event : Type :=
  | EvBBox (z x y : Z)
  | EvConnect
  | EvLoadSpatial (con : conn)
  | EvCursor (con : conn)
  | EvQuery (cur : cursor) (q : tile_query)
  | EvPrint (l : log_line).

(** [get_connection]: the calling thread's connection, opened on first
    use and kept in [_thread_local.connection]. *)
Definition get_connection (db : store) (thread_local : option conn)
  : result conn * option conn * list event :=
  match thread_local with
  | Some con => (Ok con, thread_local, [])
  | None =>
    match connect db with
    | Raise e => (Raise e, None, [EvConnect])
    | Ok con =>
      match load_spatial db con with
      | Raise e => (Raise e, None, [EvConnect; EvLoadSpatial con])
      | Ok _ => (Ok con, Some con, [EvConnect; EvLoadSpatial con])
      end
    end
  end.

Definition empty_tile : response :=
  Response (Bytes []) 200 "application/x-protobuf" ∅.

Definition tile_response (tile_data : list Byte.byte) : response :=
  Response (Bytes tile_data) 200 "application/vnd.mapbox-vector-tile"
    {[ "Cache-Control" := "public, max-age=3600" ]}.

(** [result[0] if result and result[0] else b''] *)
Definition tile_data_of (row : option (option (list Byte.byte))) : list Byte.byte :=
  match row with
  | Some (Some (b :: data)) => b :: data
  | _ => []
  end.

Section WithLibm.
Context {libm : Libm}.

(** The body of the [try] block of [get_tile]. *)
Definition query_tile (db : store) (con : conn) (z x y : Z) (b : bbox)
  : result response * list event :=
  match open_cursor db con with
  | Raise e => (Raise e, [EvCursor con])
  | Ok cur =>
    let query := TileQuery z x y (min_lon b) (min_lat b) (max_lon b) (max_lat b) in
    match fetchone db cur query with
    | Raise e => (Raise e, [EvCursor con; EvQuery cur query])
    | Ok row =>
      let tile_data := tile_data_of row in
      (Ok (tile_response tile_data),
       [EvCursor con; EvQuery cur query;
        EvPrint (LogTiming z x y (length tile_data))])
    end
  end.

(** [get_tile], run by a thread whose [_thread_local.connection] is
    [thread_local]: the response or the exception that leaves the
    handler, the thread's connection afterwards, and what was done. *)
Definition get_tile (db : store) (z x y : Z) (thread_local : option conn)
  : result response * option conn * list event :=
  if z <? 10 then (Ok empty_tile, thread_local, [])
  else
    match tile_to_bbox z x y with
    | Raise e => (Raise e, thread_local, [EvBBox z x y])
    | Ok b =>
      match get_connection db thread_local with
      | (Raise e, tl, evs) => (Raise e, tl, EvBBox z x y :: evs)
      | (Ok con, tl, evs) =>
        match query_tile db con z x y b with
        | (Ok r, evs') => (Ok r, tl, EvBBox z x y :: evs ++ evs')
        | (Raise e, evs') =>
          (Ok empty_tile, tl,
           EvBBox z x y :: evs ++ evs'
             ++ [EvPrint (LogError z x y e); EvPrint (LogTraceback e)])
        end
      end
    end.

End WithLibm.

End Tiles.

(** ** The dashboard ([app.py]) *)
Module Dashboard.
Import PyFloat.

(** *** Numbers as [round] returns them and as [==] compares them *)

Inductive num : Type :=
  | NInt (n : Z)
  | NFloat (f : float).

(** [round(x, ndigits)] on a float, [ndigits >= 0]: the decimal expansion
    of the exact value of [x] is rounded to [ndigits] places, half to even,
    and the decimal number obtained is converted to the nearest binary64;
    zeros, infinities and NaN are returned as they are. *)
Definition round_float (x : float) (ndigits : Z) : float :=
  match x with
  | S754_finite s m e =>
    let num := if 0 <=? e then Zpos m * 2 ^ e * 10 ^ ndigits else Zpos m * 10 ^ ndigits in
    let den := if 0 <=? e then 1 else 2 ^ (- e) in
    let q := num / den in
    let r := num mod den in
    let n :=
      match 2 * r ?= den with
      | Lt => q
      | Gt => q + 1
      | Eq => if Z.even q then q else q + 1
      end in
    match n, 10 ^ ndigits with
    | Zpos n', Zpos d => SFdiv prec emax (S754_finite s n' 0) (S754_finite false d 0)
    | _, _ => S754_zero s
    end
  | _ => x
  end.

(** [round(v, ndigits)] on a JSON value: an [int] (or [bool]) is returned
    as an [int], a [float] is rounded, anything else has no [__round__]. *)
Definition py_round (v : json) (ndigits : Z) : result num :=
  match v with
  | JInt n => Ok (NInt n)
  | JBool b => Ok (NInt (if b then 1 else 0))
  | JFloat f => Ok (NFloat (round_float f ndigits))
  | _ => Raise TypeError
  end.

(** The exact value of a number: [m * 2^e] with [m] odd (or zero), or an
    infinity; NaN has none. *)
Inductive exact : Type :=
  | Dyadic (m e : Z)
  | Infinite (negative : bool).

#[global] Instance exact_eq_dec : EqDecision exact.
Proof. solve_decision. Defined.

Fixpoint odd_part (p : positive) : positive * Z :=
  match p with
  | xO p' => let '(q, k) := odd_part p' in (q, k + 1)
  | _ => (p, 0)
  end.

Definition dyadic (m e : Z) : exact :=
  match m with
  | Z0 => Dyadic 0 0
  | Zpos p => let '(q, k) := odd_part p in Dyadic (Zpos q) (e + k)
  | Zneg p => let '(q, k) := odd_part p in Dyadic (Zneg q) (e + k)
  end.

Definition exact_value (a : num) : option exact :=
  match a with
  | NInt n => Some (dyadic n 0)
  | NFloat (S754_zero _) => Some (Dyadic 0 0)
  | NFloat (S754_finite s m e) => Some (dyadic (cond_Zopp s (Zpos m)) e)
  | NFloat (S754_infinity s) => Some (Infinite s)
  | NFloat S754_nan => None
  end.

(** [a == b] on numbers: equal exact values; NaN equals nothing. *)
Definition num_eq (a b : num) : bool :=
  match exact_value a, exact_value b with
  | Some u, Some v => bool_decide (u = v)
  | _, _ => false
  end.

(** *** The memoisation key *)

Definition key : Type := num * num * num * num * num.

(** [make_bounds_key]. *)
Definition make_bounds_key (b : json) : result (option key) :=
  if negb (truthy b) then Ok None
  else
    match b with
    | JObj m =>
      north ← py_round (dict_get_default m "north" (JInt 0)) 4;
      south ← py_round (dict_get_default m "south" (JInt 0)) 4;
      east ← py_round (dict_get_default m "east" (JInt 0)) 4;
      west ← py_round (dict_get_default m "west" (JInt 0)) 4;
      zoom ← py_round (dict_get_default m "zoom" (JInt 0)) 1;
      mret (Some (north, south, east, west, zoom))
    | _ => Raise AttributeError
    end.

Definition key_eq (k1 k2 : key) : bool :=
  let '(n1, s1, e1, w1, z1) := k1 in
  let '(n2, s2, e2, w2, z2) := k2 in
  num_eq n1 n2 && num_eq s1 s2 && num_eq e1 e2 && num_eq w1 w2 && num_eq z1 z2.

(** [k1 != k2] where each is [None] or a key. *)
Definition key_ne (k1 k2 : option key) : bool :=
  match k1, k2 with
  | None, None => false
  | Some a, Some b => negb (key_eq a b)
  | _, _ => true
  end.

(** *** The statistics query *)

(** The aggregate query with the four values of the bounds interpolated. *)
Record stats_query : Type := StatsQuery {
  q_east : json; q_west : json; q_north : json; q_south : json
}.

Record stats_store : Type := StatsStore {
  (** [duckdb.connect(get_db_path(), read_only=True)] *)
  stats_connect : result unit;
  (** [con.execute("LOAD spatial;")] *)
  stats_load_spatial : result unit;
  (** [con.execute(query).fetchone()]: no row, or count and area *)
  stats_fetchone : stats_query -> result (option (json * json))
}.

Inductive event : Type :=
  | EvConnect
  | EvLoadSpatial
  | EvQuery (q : stats_query)
  | EvPrint (e : exn).

Record stats : Type := Stats { count : json; area : json }.

Definition no_stats : stats := Stats (JInt 0) (JInt 0).

(** [v or 0] *)
Definition or_zero (v : json) : json := if truthy v then v else JInt 0.

(** [query_stats]: the four bounds are read first, outside the [try]
    block; every exception of the store is caught and answered with
    zeros. *)
Definition query_stats (db : stats_store) (bounds : json)
  : result (stats * list event) :=
  if negb (truthy bounds) then Ok (no_stats, [])
  else
    north ← py_get bounds "north";
    south ← py_get bounds "south";
    east ← py_get bounds "east";
    west ← py_get bounds "west";
    let q := StatsQuery east west north south in
    match stats_connect db with
    | Raise e => Ok (no_stats, [EvConnect; EvPrint e])
    | Ok _ =>
      match stats_load_spatial db with
      | Raise e => Ok (no_stats, [EvConnect; EvLoadSpatial; EvPrint e])
      | Ok _ =>
        match stats_fetchone db q with
        | Raise e => Ok (no_stats, [EvConnect; EvLoadSpatial; EvQuery q; EvPrint e])
        | Ok None => Ok (no_stats, [EvConnect; EvLoadSpatial; EvQuery q])
        | Ok (Some (c, a)) =>
          Ok (Stats (or_zero c) (or_zero a), [EvConnect; EvLoadSpatial; EvQuery q])
        end
      end
    end.

(** The part of [st.session_state] that [main] keeps between reruns. *)
Record session : Type := Session {
  last_bounds : option key;
  session_stats : stats
}.

Definition session_init : session := Session None no_stats.

(** One rerun of [main], from the bounds [get_view_bounds] returned to the
    point where the statistics are displayed: the session afterwards and
    what was done on the store; an exception ends the rerun with the
    session as it was. *)
Definition main (db : stats_store) (bounds : json) (s : session)
  : result (session * list event) :=
  bounds_key ← make_bounds_key bounds;
  if key_ne bounds_key (last_bounds s) then
    '(st, evs) ← query_stats db bounds;
    mret (Session bounds_key st, evs)
  else mret (s, []).

(** The queries sent to the dataset among the events of a rerun. *)
Definition is_query (ev : event) : bool :=
  match ev with
  | EvQuery _ => true
  | _ => false
  end.

Definition queries (evs : list event) : nat := length (filter is_query evs).

End Dashboard.

(** ** Concurrent view updates ([tile_server.py] under a threaded server)

    Each request runs [update_view] or [get_bounds] on a thread of its own,
    and the steps of different threads interleave in any order.  A step is
    a statement of the handler (the statements of [update_view] up to its
    test, which touch nothing but the request's own data, make one step);
    the interpreter lock makes the store of a dictionary item one step.
    The dictionary a writer parsed from its request body is reachable from
    that writer only, until the writer stores a reference to it in
    [current_stats['bounds']]; a reader takes the reference first and
    serialises the object it points to later. *)
Module Concurrent.
Import Register.

(** What [current_stats['bounds']] refers to: the value that was there
    before these requests, or the [bounds] object of writer [i]. *)
Inductive slot : Type :=
  | SlotInitial
  | SlotOf (i : nat).

Inductive writer_pc : Type :=
  | WStart                       (* before [bounds = data.get('bounds')] *)
  | WSetZoom                     (* before [bounds['zoom'] = zoom] *)
  | WPublish                     (* before [current_stats['bounds'] = bounds] *)
  | WDone (r : result response). (* returned, or left by an exception *)

(** A thread running [update_view]: its request body, where it stands, and
    its locals [bounds] (the object, with its current content) and [zoom]. *)
Record writer : Type := Writer {
  w_data : json;
  w_pc : writer_pc;
  w_bounds : json;
  w_zoom : json
}.

(** A thread running [get_bounds]. *)
Inductive reader : Type :=
  | RStart               (* before [current_stats.get('bounds')] *)
  | RLoaded (s : slot)   (* holds the reference, before [jsonify] reads the object *)
  | RDone (v : json).    (* answered [{"bounds": v}] *)

Record config : Type := Config {
  c_slot : slot;
  c_writers : list writer;
  c_readers : list reader
}.

(** The next statement of a writer: the writer afterwards, and whether the
    statement was the store into [current_stats['bounds']]. *)
Definition writer_step (w : writer) : option (writer * bool) :=
  match w_pc w with
  | WStart =>
    match py_get (w_data w) "bounds" with
    | Raise e => Some (Writer (w_data w) (WDone (Raise e)) (w_bounds w) (w_zoom w), false)
    | Ok bounds =>
      match py_get (w_data w) "zoom" with
      | Raise e => Some (Writer (w_data w) (WDone (Raise e)) bounds (w_zoom w), false)
      | Ok zoom =>
        if negb (truthy bounds)
        then Some (Writer (w_data w) (WDone (Ok (jsonify error_body 400))) bounds zoom, false)
        else Some (Writer (w_data w) WSetZoom bounds zoom, false)
      end
    end
  | WSetZoom =>
    match py_setitem (w_bounds w) "zoom" (w_zoom w) with
    | Raise e => Some (Writer (w_data w) (WDone (Raise e)) (w_bounds w) (w_zoom w), false)
    | Ok bounds' => Some (Writer (w_data w) WPublish bounds' (w_zoom w), false)
    end
  | WPublish =>
    Some (Writer (w_data w) (WDone (Ok (jsonify ok_body 200))) (w_bounds w) (w_zoom w), true)
  | WDone _ => None
  end.

(** The object a reference points to, as it is now. *)
Definition deref (v0 : json) (ws : list writer) (s : slot) : json :=
  match s with
  | SlotInitial => v0
  | SlotOf i => default JNull (w_bounds <$> ws !! i)
  end.

(** One step of the server: some thread runs its next statement. *)
Inductive step (v0 : json) : config -> config -> Prop :=
  | step_writer c i w w' pub :
      c_writers c !! i = Some w ->
      writer_step w = Some (w', pub) ->
      step v0 c (Config (if pub then SlotOf i else c_slot c)
                        (<[i := w']> (c_writers c)) (c_readers c))
  | step_reader_load c j :
      c_readers c !! j = Some RStart ->
      step v0 c (Config (c_slot c) (c_writers c)
                        (<[j := RLoaded (c_slot c)]> (c_readers c)))
  | step_reader_dump c j s :
      c_readers c !! j = Some (RLoaded s) ->
      step v0 c (Config (c_slot c) (c_writers c)
                        (<[j := RDone (deref v0 (c_writers c) s)]> (c_readers c))).

(** [n] requests to [/update-view] and [k] to [/get-bounds] have arrived;
    no thread has run yet. *)
Definition init (reqs : list json) (k : nat) : config :=
  Config SlotInitial (map (fun data => Writer data WStart JNull JNull) reqs)
         (replicate k RStart).

Definition writer_done (w : writer) : Prop := exists r, w_pc w = WDone r.

(** What a [/get-bounds] arriving now would put under ["bounds"]. *)
Definition current_bounds (v0 : json) (c : config) : json :=
  deref v0 (c_writers c) (c_slot c).

(** A run under a given schedule: [inl i] lets writer [i] run a statement,
    [inr j] reader [j]; a thread that cannot run is skipped. *)
Definition sched_step (v0 : json) (c : config) (t : nat + nat) : config :=
  match t with
  | inl i =>
    match c_writers c !! i with
    | Some w =>
      match writer_step w with
      | Some (w', pub) =>
        Config (if pub then SlotOf i else c_slot c)
               (<[i := w']> (c_writers c)) (c_readers c)
      | None => c
      end
    | None => c
    end
  | inr j =>
    match c_readers c !! j with
    | Some RStart =>
      Config (c_slot c) (c_writers c) (<[j := RLoaded (c_slot c)]> (c_readers c))
    | Some (RLoaded s) =>
      Config (c_slot c) (c_writers c)
             (<[j := RDone (deref v0 (c_writers c) s)]> (c_readers c))
    | _ => c
    end
  end.

Definition run (v0 : json) (schedule : list (nat + nat)) (c : config) : config :=
  foldl (sched_step v0) c schedule.

End Concurrent.

(** ** The tile formulas as the specification words them

    [n = 2^z]; longitude [col/n * 360 - 180]; latitude
    [degrees(atan(sinh(pi * (1 - 2*row/n))))]. *)
Module TileFormulas.
Import PyFloat.

(** In binary64, every operation rounded to nearest. *)
Definition lon (z col : Z) : float :=
  sub (mul (SFdiv prec emax (nearest col 0) (nearest 1 z)) f360) f180.

Definition lat `{Libm} (z row : Z) : float :=
  degrees (math_atan (math_sinh
    (mul pi (sub one (SFdiv prec emax (nearest (2 * row) 0) (nearest 1 z)))))).



End TileFormulas.

(** ** A worker thread of the tile server

    The threaded server hands each request to a worker thread; a thread
    serves its requests one after the other and keeps
    [_thread_local.connection] from one request to the next.  An exception
    that leaves the handler ends that request only. *)
Module TileThread.
Import Tiles.

Section WithLibm.
Context {libm : Libm}.

(** The tile requests [(z, x, y)] one thread serves, in order: the answers,
    the thread's connection at the end, and everything that was done. *)
Fixpoint serve (db : store) (reqs : list (Z * Z * Z)) (thread_local : option conn)
  : list (result response) * option conn * list event :=
  match reqs with
  | [] => ([], thread_local, [])
  | (z, x, y) :: reqs' =>
    let '(r, tl, evs) := get_tile db z x y thread_local in
    let '(rs, tl', evs') := serve db reqs' tl in
    (r :: rs, tl', evs ++ evs')
  end.

End WithLibm.

Definition is_connect (ev : event) : bool :=
  match ev with
  | EvConnect => true
  | _ => false
  end.

(** The events that touch the store. *)
Definition is_store_event (ev : event) : bool :=
  match ev with
  | EvConnect | EvLoadSpatial _ | EvCursor _ | EvQuery _ _ => true
  | _ => false
  end.

Definition is_raise {A} (r : result A) : bool :=
  match r with
  | Raise _ => true
  | Ok _ => false
  end.

End TileThread.

(** ** Polling the view state ([app.py])

    [get_view_bounds] asks the tile server for [/get-bounds].  What
    [requests.get] hands back is a reply whose [ok] flag and [json()] method
    the function uses; the call itself and [json()] may raise. *)
Module Polling.

Record reply : Type := Reply {
  (** [response.ok] *)
  reply_ok : bool;
  (** [response.json()]: the parsed body, or an exception when the body is
      not a JSON document *)
  reply_json : result json
}.

(** [get_view_bounds], on the outcome of the [requests.get] call.  The
    bare [except] of the function catches whatever is raised inside the
    [try] block, also by [.get] on a document that is not an object. *)
Definition get_view_bounds (http_get : result reply) : json :=
  match http_get with
  | Raise _ => JNull
  | Ok response =>
    if reply_ok response then
      match reply_json response with
      | Raise _ => JNull
      | Ok doc =>
        match py_get doc "bounds" with
        | Raise _ => JNull
        | Ok bounds => bounds
        end
      end
    else JNull
  end.

(** The reply [requests] builds from a response of the server made by
    [jsonify]: [ok] unless the status is a 4xx or 5xx code, and [json()]
    gives back the document that was serialised. *)
Definition received (r : response) : option reply :=
  match body r with
  | Json j => Some (Reply (negb ((400 <=? status r) && (status r <? 600))) (Ok j))
  | _ => None
  end.

End Polling.

(** ** Starting the tile server from the dashboard ([app.py]) *)
Module Startup.

(** The socket calls of [is_tile_server_running]; each may raise. *)
Record network : Type := Network {
  (** [socket.socket(AF_INET, SOCK_STREAM)] *)
  new_socket : result unit;
  (** [sock.settimeout(1)] *)
  settimeout : result unit;
  (** [sock.connect_ex((host, port))]: the error code, 0 when connected *)
  connect_ex : result Z;
  (** [sock.close()] *)
  close : result unit
}.

Inductive event : Type :=
  | EvSocket
  | EvSetTimeout
  | EvConnectEx
  | EvClose
  | EvStartThread
  | EvSleep.

(** The [finally] clause: the socket is closed; an exception of [close]
    replaces the value that was about to be returned. *)
Definition finally_close (net : network) (r : bool) (evs : list event)
  : result bool * list event :=
  match close net with
  | Raise e => (Raise e, evs ++ [EvClose])
  | Ok _ => (Ok r, evs ++ [EvClose])
  end.

(** [is_tile_server_running]. *)
Definition is_tile_server_running (net : network) : result bool * list event :=
  match new_socket net with
  | Raise e => (Raise e, [EvSocket])
  | Ok _ =>
    match settimeout net with
    | Raise _ => finally_close net false [EvSocket; EvSetTimeout]
    | Ok _ =>
      match connect_ex net with
      | Raise _ => finally_close net false [EvSocket; EvSetTimeout; EvConnectEx]
      | Ok code => finally_close net (code =? 0) [EvSocket; EvSetTimeout; EvConnectEx]
      end
    end
  end.

(** [ensure_tile_server_running].  [started] tells whether
    ['tile_server_started'] is in [st.session_state]; [net] is the network
    as the first probe finds it, [net'] as the second probe finds it after
    the two seconds of sleep; [start] is [thread.start()]. *)
Definition ensure_tile_server_running
    (net net' : network) (start : result unit) (started : bool)
  : result bool * bool * list event :=
  match is_tile_server_running net with
  | (Raise e, evs) => (Raise e, started, evs)
  | (Ok true, evs) => (Ok true, started, evs)
  | (Ok false, evs) =>
    if negb started then
      match start with
      | Raise e => (Raise e, started, evs ++ [EvStartThread])
      | Ok _ =>
        let '(r, evs') := is_tile_server_running net' in
        (r, true, evs ++ [EvStartThread; EvSleep] ++ evs')
      end
    else (Ok false, started, evs)
  end.

(** The reruns of one browser session, each with its own view of the
    network: the flag and the events at the end. *)
Fixpoint ensure_reruns (envs : list (network * network * result unit)) (started : bool)
  : bool * list event :=
  match envs with
  | [] => (started, [])
  | (net, net', start) :: envs' =>
    let '(_, started', evs) := ensure_tile_server_running net net' start started in
    let '(started'', evs') := ensure_reruns envs' started' in
    (started'', evs ++ evs')
  end.

Definition is_start (ev : event) : bool :=
  match ev with
  | EvStartThread => true
  | _ => false
  end.

End Startup.

(** ** A browser session of the dashboard ([app.py])

    Streamlit reruns [main] every 1.5 seconds and keeps
    [st.session_state] from one rerun to the next. *)
Module Session.
Import Dashboard.

(** The reruns of [main] on the bounds polled one after the other; an
    exception ends a rerun and leaves the session state as it was. *)
Fixpoint reruns (db : stats_store) (polls : list json) (s : session)
  : session * list event :=
  match polls with
  | [] => (s, [])
  | bounds :: polls' =>
    match main db bounds s with
    | Raise _ => reruns db polls' s
    | Ok (s', evs) =>
      let '(s'', evs') := reruns db polls' s' in
      (s'', evs ++ evs')
    end
  end.

(** The number of polls whose key differs from the key of the poll before
    ([prev] before the first), among the polls that have a key. *)
Fixpoint changes (prev : option key) (polls : list json) : nat :=
  match polls with
  | [] => 0
  | bounds :: polls' =>
    match make_bounds_key bounds with
    | Raise _ => changes prev polls'
    | Ok k => (if key_ne k prev then 1 else 0) + changes k polls'
    end
  end.

End Session.

(* ================================================================== *)
(** * Properties *)

(** ** The view-state register *)
Module RegisterFacts.
Import Register.

Lemma truthy_obj (b : gmap string json) : truthy (JObj b) = true <-> b ≠ ∅.
Proof.
  simpl. rewrite negb_true_iff, bool_decide_eq_false. done.
Qed.

(** What one [/update-view] does to [current_stats]: an accepted request
    replaces the ['bounds'] entry, any other leaves the dictionary alone. *)
Lemma update_view_state (data : json) (cs : gmap string json) :
  snd (update_view data cs) =
    match accepted data with
    | Some v => <["bounds" := v]> cs
    | None => cs
    end.
Proof.
  unfold update_view, accepted.
  destruct data as [| | | | | |m]; simpl; try done.
  destruct (dict_get m "bounds") as [| [] |n|f|s|l|b] eqn:Hb; simpl; try done.
  - destruct (n =? 0); done.
  - destruct f; done.
  - destruct (String.eqb s ""); done.
  - destruct (bool_decide (l = [])); done.
  - destruct (bool_decide (b = ∅)); done.
Qed.

Lemma update_view_response (data : json) (cs : gmap string json) :
  fst (update_view data cs) = Ok (jsonify ok_body 200) <-> is_Some (accepted data).
Proof.
  unfold update_view, accepted.
  destruct data as [| | | | | |m]; simpl;
    try (split; [discriminate | intros [? ?]; discriminate]).
  destruct (dict_get m "bounds") as [| [] |n|f|s|l|b] eqn:Hb; simpl;
    try (split; [discriminate | intros [? ?]; discriminate]).
  - destruct (n =? 0); simpl; (split; [discriminate | intros [? ?]; discriminate]).
  - destruct f; simpl; (split; [discriminate | intros [? ?]; discriminate]).
  - destruct (String.eqb s ""); simpl; (split; [discriminate | intros [? ?]; discriminate]).
  - destruct (bool_decide (l = [])); simpl; (split; [discriminate | intros [? ?]; discriminate]).
  - destruct (bool_decide (b = ∅)); simpl.
    + split; [discriminate | intros [? ?]; discriminate].
    + split; [eauto | done].
Qed.

Lemma run_updates_snoc reqs data cs :
  run_updates (reqs ++ [data]) cs = snd (update_view data (run_updates reqs cs)).
Proof. unfold run_updates. by rewrite foldl_app. Qed.

Lemma run_updates_bounds (reqs : list json) (cs : gmap string json) :
  dict_get (run_updates reqs cs) "bounds" =
    default (dict_get cs "bounds") (last_accepted reqs).
Proof.
  induction reqs as [|data reqs IH] using rev_ind; [done|].
  rewrite run_updates_snoc, update_view_state.
  unfold last_accepted in *. rewrite omap_app. simpl.
  destruct (accepted data) as [v|]; simpl.
  - rewrite last_snoc. simpl. unfold dict_get. by rewrite lookup_insert_eq.
  - by rewrite app_nil_r.
Qed.

End RegisterFacts.

Section RegisterClaims.
Import Register RegisterFacts.

(** C8, as the code has it.  For a request whose JSON body is an object:
    [/update-view] answers 400 (with the JSON error status) exactly when
    the body's ['bounds'] entry is absent or falsy ([null], [false], [0],
    an empty string, array or object), and then leaves [current_stats]
    alone; when ['bounds'] is a non-empty object the handler stores it,
    with ['zoom'] set to the submitted zoom, under ['bounds'] and answers
    200 with [{'status': 'ok'}]. *)
Theorem update_view_400_iff_falsy (m cs : gmap string json) :
  ((exists r, fst (update_view (JObj m) cs) = Ok r /\ status r = 400)
     <-> truthy (dict_get m "bounds") = false)
  /\ (truthy (dict_get m "bounds") = false ->
        update_view (JObj m) cs = (Ok (jsonify error_body 400), cs))
  /\ (forall b : gmap string json,
        m !! "bounds" = Some (JObj b) -> b ≠ ∅ ->
        update_view (JObj m) cs =
          (Ok (jsonify ok_body 200),
           <["bounds" := JObj (<["zoom" := dict_get m "zoom"]> b)]> cs)).
Proof.
  split; [|split].
  - unfold update_view. simpl.
    destruct (truthy (dict_get m "bounds")) eqn:Ht; simpl.
    + split; [|discriminate]. intros (r & Hr & Hs).
      destruct (dict_get m "bounds"); simpl in *; try discriminate;
        injection Hr as <-; discriminate.
    + split; [done|]. intros _. eexists. split; [reflexivity|done].
  - intros Ht. unfold update_view. simpl. by rewrite Ht.
  - intros b Hb Hne. unfold update_view, py_get, dict_get.
    rewrite Hb. simpl. apply truthy_obj in Hne. simpl in Hne.
    by rewrite Hne.
Qed.

(** C8, as stated, fails when ['bounds'] is present but is not an object:
    the body [{"bounds": 7, "zoom": 12}] carries a bounds value, yet the
    handler neither answers 400 nor acknowledges; the item assignment
    [bounds['zoom'] = zoom] raises [TypeError] and nothing is stored. *)
Lemma update_view_present_bounds_raises :
  let data := JObj {[ "bounds" := JInt 7; "zoom" := JInt 12 ]} in
  py_get data "bounds" = Ok (JInt 7)
  /\ truthy (JInt 7) = true
  /\ update_view data current_stats_init = (Raise TypeError, current_stats_init).
Proof. done. Qed.

(** C9.  [/get-bounds] answers [{"bounds": null}] in the initial state and
    for as long as no [/update-view] has been accepted, that is, answered
    with the 200 acknowledgment; afterwards it answers the value stored by
    the last accepted [/update-view] of the history, whatever came before
    it. *)
Theorem get_bounds_last_write_wins (reqs : list json) :
  get_bounds current_stats_init = jsonify (JObj {[ "bounds" := JNull ]}) 200
  /\ get_bounds (run_updates reqs current_stats_init) =
       jsonify (JObj {[ "bounds" := default JNull (last_accepted reqs) ]}) 200
  /\ (forall data cs,
        (fst (update_view data cs) = Ok (jsonify ok_body 200)
           <-> is_Some (accepted data))
        /\ snd (update_view data cs) =
             match accepted data with
             | Some v => <["bounds" := v]> cs
             | None => cs
             end).
Proof.
  split; [done|]. split.
  - unfold get_bounds. by rewrite run_updates_bounds.
  - intros data cs. split; [apply update_view_response|apply update_view_state].
Qed.

(** C10, as the code has it.  For a body whose ['bounds'] is a non-empty
    JSON object (its keys and values are not inspected) and any zoom
    ([null] when the body has none), an [/update-view] followed by a
    [/get-bounds] returns the submitted object with the key ['zoom'] set
    to the submitted zoom. *)
Theorem update_view_get_bounds_round_trip (m b cs : gmap string json) :
  m !! "bounds" = Some (JObj b) -> b ≠ ∅ ->
  fst (update_view (JObj m) cs) = Ok (jsonify ok_body 200)
  /\ get_bounds (snd (update_view (JObj m) cs)) =
       jsonify (JObj {[ "bounds" := JObj (<["zoom" := dict_get m "zoom"]> b) ]}) 200.
Proof.
  intros Hb Hne.
  assert (Ha : accepted (JObj m) = Some (JObj (<["zoom" := dict_get m "zoom"]> b))).
  { unfold accepted, dict_get at 1. rewrite Hb. simpl.
    by rewrite bool_decide_eq_false_2. }
  split.
  - apply update_view_response. by rewrite Ha.
  - rewrite update_view_state, Ha. unfold get_bounds, dict_get.
    by rewrite lookup_insert_eq.
Qed.

Lemma update_view_get_bounds_round_trip_witness :
  let b : gmap string json :=
    {[ "north" := JInt 53; "south" := JInt 52; "east" := JInt 6; "west" := JInt 5 ]} in
  let m : gmap string json := {[ "bounds" := JObj b ]} in
  fst (update_view (JObj m) current_stats_init) = Ok (jsonify ok_body 200)
  /\ get_bounds (snd (update_view (JObj m) current_stats_init)) =
       jsonify (JObj {[ "bounds" := JObj (<["zoom" := JNull]> b) ]}) 200.
Proof.
  intros b m.
  apply (update_view_get_bounds_round_trip m b current_stats_init).
  - reflexivity.
  - intros H. apply (f_equal (fun x : gmap string json => x !! "north")) in H.
    vm_compute in H. discriminate H.
Defined.

(** C10, as stated, fails for a truthy value that is not an object: with
    the array [[5, 52, 6, 53]] as bounds the handler raises [TypeError],
    and the next [/get-bounds] still answers [{"bounds": null}]. *)
Lemma update_view_array_bounds_not_stored :
  let bounds := JArr [JInt 5; JInt 52; JInt 6; JInt 53] in
  let data := JObj {[ "bounds" := bounds; "zoom" := JInt 12 ]} in
  truthy bounds = true
  /\ fst (update_view data current_stats_init) = Raise TypeError
  /\ get_bounds (snd (update_view data current_stats_init)) =
       jsonify (JObj {[ "bounds" := JNull ]}) 200.
Proof. done. Qed.

End RegisterClaims.

(** ** The tile endpoint *)
Module TileFacts.
Import PyFloat Tiles.

(** A store whose database file cannot be opened. *)
Definition unreachable_store : store :=
  {| connect := Raise (StoreError "IO Error: Cannot open file nl_buildings.duckdb");
     load_spatial := fun _ => Ok tt;
     open_cursor := fun con => Ok con;
     fetchone := fun _ _ => Ok None |}.

Section WithLibm.
Context {libm : Libm}.

(** The [try] block answers with the tile type and the cache header
    whenever it answers. *)
Lemma query_tile_ok db con z x y b r evs :
  query_tile db con z x y b = (Ok r, evs) ->
  exists data, r = tile_response data.
Proof.
  unfold query_tile. intros H.
  destruct (open_cursor db con) as [cur|e]; [|discriminate].
  destruct (fetchone db cur _) as [row|e]; [|discriminate].
  injection H as <- _. eauto.
Qed.

(** Whatever is raised inside the [try] block is caught: once the
    bounding box and the connection are there, [get_tile] answers. *)
Lemma get_tile_try_caught db z x y b con evs e evs' :
  (z <? 10) = false ->
  tile_to_bbox z x y = Ok b ->
  query_tile db con z x y b = (Raise e, evs') ->
  forall tl, get_connection db tl = (Ok con, Some con, evs) ->
  get_tile db z x y tl =
    (Ok empty_tile, Some con,
     EvBBox z x y :: evs ++ evs'
       ++ [EvPrint (LogError z x y e); EvPrint (LogTraceback e)]).
Proof.
  intros Hz Hb Hq tl Hc. unfold get_tile. by rewrite Hz, Hb, Hc, Hq.
Qed.

End WithLibm.

End TileFacts.

Section TileClaims.
Import PyFloat Tiles TileFacts.
Context {libm : Libm}.

(** C2.  Below zoom 10 [get_tile] answers 200 with a body of zero bytes
    and does nothing else: no bounding box is computed, the thread's
    connection is neither opened nor used, and no query is run. *)
Theorem get_tile_low_zoom_short_circuit (db : store) (z x y : Z) (tl : option conn) :
  z < 10 ->
  get_tile db z x y tl = (Ok empty_tile, tl, [])
  /\ body empty_tile = Bytes [] /\ status empty_tile = 200.
Proof.
  intros Hz. unfold get_tile.
  replace (z <? 10) with true by (symmetry; by apply Z.ltb_lt). done.
Qed.

(** C4, at a failing request.  The connection is acquired before the
    [try] block: on a thread without a connection yet, with a store that
    cannot be opened, the request for tile 12/2108/1354 is not answered;
    the store's exception leaves [get_tile], nothing is logged by it. *)
Theorem get_tile_connection_failure_propagates :
  get_tile unreachable_store 12 2108 1354 None =
    (Raise (StoreError "IO Error: Cannot open file nl_buildings.duckdb"),
     None, [EvBBox 12 2108 1354; EvConnect]).
Proof. vm_compute. reflexivity. Qed.

(** C7, as the code has it.  An answer of [get_tile] is one of two
    responses.  The one built from a query result (zoom 10 and above)
    has the content type [application/vnd.mapbox-vector-tile] and the
    header [Cache-Control: public, max-age=3600].  The empty one, of the
    short-circuit below zoom 10 and of the [except] branch, has the
    content type [application/x-protobuf] and no [Cache-Control]
    header. *)
Theorem get_tile_response_headers
    (db : store) (z x y : Z) (tl : option conn) (r : response) :
  fst (fst (get_tile db z x y tl)) = Ok r ->
  ((exists data, r = tile_response data) /\ 10 <= z
     /\ mimetype r = "application/vnd.mapbox-vector-tile"
     /\ headers r !! "Cache-Control" = Some "public, max-age=3600")
  \/ (r = empty_tile
      /\ mimetype r = "application/x-protobuf"
      /\ status r = 200 /\ body r = Bytes []
      /\ headers r !! "Cache-Control" = None).
Proof.
  unfold get_tile. destruct (z <? 10) eqn:Hz; simpl.
  - intros [= <-]. by right.
  - apply Z.ltb_ge in Hz.
    destruct (tile_to_bbox z x y) as [b|e]; [|discriminate].
    destruct (get_connection db tl) as [[[con|e] tl'] evs]; [|discriminate].
    destruct (query_tile db con z x y b) as [[r'|e] evs'] eqn:Hq; simpl.
    + intros [= <-]. left.
      destruct (query_tile_ok _ _ _ _ _ _ _ _ Hq) as [data ->].
      split; [eauto|]. done.
    + intros [= <-]. by right.
Qed.

End TileClaims.

Lemma get_tile_low_zoom_short_circuit_witness :
  5 < 10 /\
  forall (libm : Libm) (db : Tiles.store) (tl : option Tiles.conn),
    Tiles.get_tile db 5 17 11 tl = (Ok Tiles.empty_tile, tl, [])
    /\ body Tiles.empty_tile = Bytes [] /\ status Tiles.empty_tile = 200.
Proof.
  split; [lia|].
  intros libm db tl. apply (get_tile_low_zoom_short_circuit db 5 17 11 tl). lia.
Defined.

(** C7, as stated, fails below zoom 10: the answer to tile 5/17/11 has no
    [Cache-Control] header, whatever the store and the C library. *)
Lemma get_tile_low_zoom_no_cache_header :
  headers Tiles.empty_tile !! "Cache-Control" = None
  /\ forall (libm : Libm) (db : Tiles.store) (tl : option Tiles.conn),
       fst (fst (Tiles.get_tile db 5 17 11 tl)) = Ok Tiles.empty_tile.
Proof. split; [done|]. intros. reflexivity. Qed.

(** A store with one building tile. *)
Definition sample_store : Tiles.store :=
  {| Tiles.connect := Ok 1%N;
     Tiles.load_spatial := fun _ => Ok tt;
     Tiles.open_cursor := fun con => Ok con;
     Tiles.fetchone := fun _ _ => Ok (Some (Some [Byte.x1a; Byte.x00])) |}.

Lemma get_tile_response_headers_witness :
  10 <= 12 /\
  forall libm : Libm,
    fst (fst (Tiles.get_tile sample_store 12 2108 1354 None))
      = Ok (Tiles.tile_response [Byte.x1a; Byte.x00])
    /\ mimetype (Tiles.tile_response [Byte.x1a; Byte.x00])
         = "application/vnd.mapbox-vector-tile"
    /\ headers (Tiles.tile_response [Byte.x1a; Byte.x00]) !! "Cache-Control"
         = Some "public, max-age=3600".
Proof.
  split; [lia|]. intros libm.
  assert (H : fst (fst (Tiles.get_tile sample_store 12 2108 1354 None))
              = Ok (Tiles.tile_response [Byte.x1a; Byte.x00]))
    by (vm_compute; reflexivity).
  split; [exact H|].
  destruct (get_tile_response_headers sample_store 12 2108 1354 None _ H)
    as [(_ & _ & Hm & Hh)|(Hempty & _)]; [by split|discriminate Hempty].
Defined.

(** ** The dashboard's memoised statistics *)
Module DashboardFacts.
Import Dashboard.

Lemma num_eq_sym a b : num_eq a b = num_eq b a.
Proof.
  unfold num_eq. destruct (exact_value a), (exact_value b); try done.
  apply bool_decide_ext. split; congruence.
Qed.

Lemma num_eq_trans a b c : num_eq a b = true -> num_eq b c = true -> num_eq a c = true.
Proof.
  unfold num_eq.
  destruct (exact_value a), (exact_value b), (exact_value c); try done.
  rewrite !bool_decide_eq_true. congruence.
Qed.

Lemma key_eq_sym k1 k2 : key_eq k1 k2 = key_eq k2 k1.
Proof.
  destruct k1 as [[[[n1 s1] e1] w1] z1], k2 as [[[[n2 s2] e2] w2] z2]. simpl.
  by rewrite (num_eq_sym n1), (num_eq_sym s1), (num_eq_sym e1),
    (num_eq_sym w1), (num_eq_sym z1).
Qed.

Lemma key_eq_trans k1 k2 k3 :
  key_eq k1 k2 = true -> key_eq k2 k3 = true -> key_eq k1 k3 = true.
Proof.
  destruct k1 as [[[[n1 s1] e1] w1] z1], k2 as [[[[n2 s2] e2] w2] z2],
    k3 as [[[[n3 s3] e3] w3] z3]. simpl.
  rewrite !andb_true_iff.
  intros [[[[? ?] ?] ?] ?] [[[[? ?] ?] ?] ?].
  repeat split; eauto using num_eq_trans.
Qed.

(** [!=] on keys is the complement of an equivalence on the keys that
    carry no NaN. *)
Lemma key_ne_trans k1 k2 k3 :
  key_ne k1 k2 = false -> key_ne k2 k3 = false -> key_ne k1 k3 = false.
Proof.
  destruct k1 as [a|], k2 as [b|], k3 as [c|]; simpl; try done.
  rewrite !negb_false_iff. apply key_eq_trans.
Qed.

Lemma key_ne_sym k1 k2 : key_ne k1 k2 = key_ne k2 k1.
Proof.
  destruct k1 as [a|], k2 as [b|]; simpl; try done. by rewrite key_eq_sym.
Qed.

(** One call of [query_stats] sends at most one query to the dataset. *)
Lemma query_stats_queries db bounds st evs :
  query_stats db bounds = Ok (st, evs) -> (queries evs <= 1)%nat.
Proof.
  unfold query_stats, queries.
  destruct (negb (truthy bounds)); [intros [= <- <-]; simpl; lia|].
  destruct (py_get bounds "north"); [|done].
  destruct (py_get bounds "south"); [|done].
  destruct (py_get bounds "east"); [|done].
  destruct (py_get bounds "west"); [|done].
  cbn [mbind result_bind].
  destruct (stats_connect db); [|intros [= <- <-]; simpl; lia].
  destruct (stats_load_spatial db); [|intros [= <- <-]; simpl; lia].
  destruct (stats_fetchone db _) as [[[? ?]|]|?]; intros [= <- <-]; simpl; lia.
Qed.

(** A rerun of [main], by cases on the comparison of the keys. *)
Lemma main_unfold db bounds s k :
  make_bounds_key bounds = Ok k ->
  main db bounds s =
    if key_ne k (last_bounds s)
    then '(st, evs) ← query_stats db bounds; Ok (Session k st, evs)
    else Ok (s, []).
Proof. intros Hk. unfold main. by rewrite Hk. Qed.

End DashboardFacts.

Section DashboardClaims.
Import Dashboard DashboardFacts.

(** C3.  A rerun of [main] touches the dataset and replaces the statistics
    only when the rounded key of the polled bounds (north, south, east and
    west rounded to 4 decimals, zoom to 1) differs from the key stored by
    the last computation; and over two consecutive reruns whose bounds have
    equal rounded keys the second one changes nothing and sends no query,
    so that at most one query reaches the dataset. *)
Theorem stats_recomputed_only_on_new_key
    (db : stats_store) (b1 b2 : json) (k1 k2 : option key)
    (s0 s1 s2 : session) (evs1 evs2 : list event) :
  make_bounds_key b1 = Ok k1 ->
  make_bounds_key b2 = Ok k2 ->
  main db b1 s0 = Ok (s1, evs1) ->
  main db b2 s1 = Ok (s2, evs2) ->
  (key_ne k1 (last_bounds s0) = false -> s1 = s0 /\ evs1 = [])
  /\ (key_ne k1 (last_bounds s0) = true ->
        exists st, query_stats db b1 = Ok (st, evs1) /\ s1 = Session k1 st)
  /\ (key_ne k2 k1 = false ->
        s2 = s1 /\ evs2 = [] /\ (queries (evs1 ++ evs2) <= 1)%nat).
Proof.
  intros Hk1 Hk2 H1 H2.
  rewrite (main_unfold _ _ _ _ Hk1) in H1.
  rewrite (main_unfold _ _ _ _ Hk2) in H2.
  destruct (key_ne k1 (last_bounds s0)) eqn:Hne1.
  - destruct (query_stats db b1) as [[st evs]|] eqn:Hq; [|done].
    injection H1 as <- <-. split; [done|]. split; [eauto|].
    intros Heq. simpl in H2. rewrite Heq in H2. injection H2 as <- <-.
    rewrite app_nil_r. split; [done|]. split; [done|].
    by eapply query_stats_queries.
  - injection H1 as <- <-. split; [done|]. split; [done|].
    intros Heq.
    rewrite (key_ne_trans _ _ _ Heq Hne1) in H2. injection H2 as <- <-.
    split; [done|]. split; [done|]. unfold queries. simpl. lia.
Qed.

End DashboardClaims.

(** A store holding 1204 buildings in the queried region. *)
Definition sample_stats_store : Dashboard.stats_store :=
  {| Dashboard.stats_connect := Ok tt;
     Dashboard.stats_load_spatial := Ok tt;
     Dashboard.stats_fetchone := fun _ =>
       Ok (Some (JInt 1204, JFloat (PyFloat.nearest 250000 0))) |}.

(** Two polled viewports that differ below the fourth decimal:
    north 52.090012 against 52.090049, zoom 14.02 against 14.04. *)
Definition sample_view (north_e6 zoom_e2 : Z) : json :=
  JObj {[ "north" := JFloat (SFdiv PyFloat.prec PyFloat.emax
                               (PyFloat.nearest north_e6 0) (PyFloat.nearest 1000000 0));
          "south" := JFloat (PyFloat.nearest 52 0);
          "east" := JInt 6;
          "west" := JInt 5;
          "zoom" := JFloat (SFdiv PyFloat.prec PyFloat.emax
                              (PyFloat.nearest zoom_e2 0) (PyFloat.nearest 100 0)) ]}.

Definition sample_key : option Dashboard.key :=
  Eval vm_compute in
    match Dashboard.make_bounds_key (sample_view 52090012 1402) with
    | Ok k => k
    | Raise _ => None
    end.

Definition sample_rerun : Dashboard.session * list Dashboard.event :=
  Eval vm_compute in
    match Dashboard.main sample_stats_store (sample_view 52090012 1402)
            Dashboard.session_init with
    | Ok r => r
    | Raise _ => (Dashboard.session_init, [])
    end.

Lemma stats_recomputed_only_on_new_key_witness :
  Dashboard.make_bounds_key (sample_view 52090012 1402) = Ok sample_key
  /\ Dashboard.make_bounds_key (sample_view 52090049 1404) = Ok sample_key
  /\ Dashboard.main sample_stats_store (sample_view 52090012 1402)
       Dashboard.session_init = Ok sample_rerun
  /\ Dashboard.main sample_stats_store (sample_view 52090049 1404) (fst sample_rerun)
       = Ok (fst sample_rerun, [])
  /\ Dashboard.key_ne sample_key sample_key = false
  /\ Dashboard.queries (snd sample_rerun) = 1%nat
  /\ (Dashboard.queries (snd sample_rerun ++ []) <= 1)%nat.
Proof.
  assert (H1 : Dashboard.make_bounds_key (sample_view 52090012 1402) = Ok sample_key)
    by (vm_compute; reflexivity).
  assert (H2 : Dashboard.make_bounds_key (sample_view 52090049 1404) = Ok sample_key)
    by (vm_compute; reflexivity).
  assert (H3 : Dashboard.main sample_stats_store (sample_view 52090012 1402)
                 Dashboard.session_init = Ok (fst sample_rerun, snd sample_rerun))
    by (vm_compute; reflexivity).
  assert (H4 : Dashboard.main sample_stats_store (sample_view 52090049 1404)
                 (fst sample_rerun) = Ok (fst sample_rerun, []))
    by (vm_compute; reflexivity).
  assert (H5 : Dashboard.key_ne sample_key sample_key = false)
    by (vm_compute; reflexivity).
  destruct (stats_recomputed_only_on_new_key _ _ _ _ _ _ _ _ _ _ H1 H2 H3 H4)
    as (_ & _ & H).
  destruct (H H5) as (_ & _ & Hq).
  repeat split; assumption || (vm_compute; reflexivity).
Defined.

(** ** Concurrent view updates *)
Module ConcurrentFacts.
Import Register RegisterFacts Concurrent.

Definition ack : result response := Ok (jsonify ok_body 200).

(** What holds of a writer wherever it stands. *)
Definition writer_inv (w : writer) : Prop :=
  match w_pc w with
  | WStart => True
  | WSetZoom =>
      py_get (w_data w) "bounds" = Ok (w_bounds w)
      /\ py_get (w_data w) "zoom" = Ok (w_zoom w)
      /\ truthy (w_bounds w) = true
  | WPublish => accepted (w_data w) = Some (w_bounds w)
  | WDone r =>
      match accepted (w_data w) with
      | Some v => r = ack /\ w_bounds w = v
      | None => r <> ack
      end
  end.

Lemma writer_step_data w w' pub :
  writer_step w = Some (w', pub) -> w_data w' = w_data w.
Proof.
  unfold writer_step. intros H.
  destruct (w_pc w).
  - destruct (py_get (w_data w) "bounds"); [|by injection H as <- _].
    destruct (py_get (w_data w) "zoom"); [|by injection H as <- _].
    destruct (negb (truthy a)); by injection H as <- _.
  - destruct (py_setitem _ _ _); by injection H as <- _.
  - by injection H as <- _.
  - done.
Qed.

Lemma writer_step_inv w w' pub :
  writer_inv w -> writer_step w = Some (w', pub) -> writer_inv w'.
Proof.
  destruct w as [data pc bounds zoom].
  unfold writer_step, writer_inv. simpl. intros Hinv H.
  destruct pc.
  - destruct data as [| | | | | |m]; simpl in H;
      try (injection H as <- _; simpl; done).
    destruct (truthy (dict_get m "bounds")) eqn:Ht; simpl in H;
      injection H as <- _; simpl.
    + done.
    + destruct (dict_get m "bounds") as [| | | | | |b]; try done.
      simpl in Ht. apply negb_false_iff in Ht. rewrite Ht. done.
  - destruct Hinv as (Hb & Hz & Ht).
    destruct data as [| | | | | |m]; simpl in Hb, Hz; try done.
    injection Hb as Hb. injection Hz as Hz.
    destruct bounds as [| | | | | |b]; simpl in H;
      injection H as <- _; simpl; rewrite Hb; try done.
    simpl in Ht. apply negb_true_iff in Ht. rewrite Ht. by rewrite Hz.
  - injection H as <- _. simpl. rewrite Hinv. done.
  - done.
Qed.


(** The invariant of the server: writers are consistent with the
    statement they stand at; the request bodies are those that arrived;
    the slot and every reference held by a reader point to the object of
    a writer that has returned its acknowledgment; every answer given is
    the initial value or the completed value of a request; and once some
    writer has been acknowledged the slot no longer holds the initial
    value. *)
Definition slot_ok (ws : list writer) (s : slot) : Prop :=
  match s with
  | SlotInitial => True
  | SlotOf i => exists w, ws !! i = Some w /\ w_pc w = WDone ack
  end.

Definition answer_ok (v0 : json) (reqs : list json) (v : json) : Prop :=
  v = v0 \/ exists i data, reqs !! i = Some data /\ accepted data = Some v.

Definition reader_ok (v0 : json) (reqs : list json) (ws : list writer) (r : reader) : Prop :=
  match r with
  | RStart => True
  | RLoaded s => slot_ok ws s
  | RDone v => answer_ok v0 reqs v
  end.

Record inv (v0 : json) (reqs : list json) (c : config) : Prop := Inv {
  inv_data : w_data <$> c_writers c = reqs;
  inv_writers : Forall writer_inv (c_writers c);
  inv_slot : slot_ok (c_writers c) (c_slot c);
  inv_readers : Forall (reader_ok v0 reqs (c_writers c)) (c_readers c);
  inv_published :
    (exists i w, c_writers c !! i = Some w /\ w_pc w = WDone ack) ->
    c_slot c <> SlotInitial
}.

Lemma inv_init v0 reqs k : inv v0 reqs (init reqs k).
Proof.
  split; simpl.
  - rewrite <- list_fmap_compose. by rewrite list_fmap_id.
  - apply Forall_fmap. by apply Forall_true.
  - done.
  - apply Forall_replicate. done.
  - intros (i & w & Hw & Hpc). rewrite list_lookup_fmap in Hw.
    destruct (reqs !! i); simpl in Hw; [|done]. by injection Hw as <-.
Qed.

Lemma writer_step_not_done w w' pub :
  writer_step w = Some (w', pub) -> forall r, w_pc w <> WDone r.
Proof. unfold writer_step. intros H r Hpc. by rewrite Hpc in H. Qed.

Lemma slot_ok_insert ws i w w' pub s :
  ws !! i = Some w -> writer_step w = Some (w', pub) ->
  slot_ok ws s -> slot_ok (<[i := w']> ws) s.
Proof.
  intros Hw Hs. destruct s as [|j]; [done|]. simpl.
  intros (wj & Hj & Hpc).
  destruct (decide (i = j)) as [->|Hne].
  - rewrite Hw in Hj. injection Hj as ->.
    by destruct (writer_step_not_done _ _ _ Hs ack).
  - exists wj. by rewrite list_lookup_insert_ne.
Qed.

(** A step of a writer leaves alone the object of a writer that was
    acknowledged. *)
Lemma deref_insert v0 ws i w w' pub s :
  ws !! i = Some w -> writer_step w = Some (w', pub) ->
  slot_ok ws s ->
  deref v0 (<[i := w']> ws) s = deref v0 ws s.
Proof.
  intros Hw Hs Hok. destruct s as [|i']; [done|]. simpl.
  destruct Hok as (w'' & Hi' & Hpc').
  destruct (decide (i = i')) as [->|Hne].
  - rewrite Hw in Hi'. injection Hi' as ->.
    by destruct (writer_step_not_done _ _ _ Hs ack).
  - by rewrite list_lookup_insert_ne.
Qed.

Lemma writer_step_pub w w' pub :
  writer_step w = Some (w', pub) -> (w_pc w' = WDone ack <-> pub = true).
Proof.
  destruct w as [data pc bounds zoom]. unfold writer_step. simpl. intros H.
  destruct pc.
  - destruct (py_get data "bounds"); [|by injection H as <- <-].
    destruct (py_get data "zoom"); [|by injection H as <- <-].
    destruct (negb (truthy a)); by injection H as <- <-.
  - destruct (py_setitem _ _ _); by injection H as <- <-.
  - by injection H as <- <-.
  - done.
Qed.

(** The object of an acknowledged writer is the completed value of its
    request. *)
Lemma deref_published v0 reqs c i w :
  inv v0 reqs c -> c_writers c !! i = Some w -> w_pc w = WDone ack ->
  reqs !! i = Some (w_data w)
  /\ accepted (w_data w) = Some (deref v0 (c_writers c) (SlotOf i)).
Proof.
  intros [Hd Hw _ _ _] Hi Hpc. split.
  - rewrite <- Hd, list_lookup_fmap, Hi. done.
  - simpl. rewrite Hi. simpl.
    pose proof (proj1 (Forall_lookup _ _) Hw i w Hi) as Hinv.
    unfold writer_inv in Hinv. rewrite Hpc in Hinv.
    destruct (accepted (w_data w)) as [v|]; [|done].
    by destruct Hinv as [_ ->].
Qed.

Lemma inv_step v0 reqs c c' : inv v0 reqs c -> step v0 c c' -> inv v0 reqs c'.
Proof.
  intros Hinv Hstep. pose proof Hinv as [Hd Hw Hs Hr Hp].
  destruct Hstep as [c i w w' pub Hi Hws | c j Hj | c j s Hj].
  - split; simpl.
    + rewrite list_fmap_insert, (writer_step_data _ _ _ Hws), Hd.
      apply list_insert_id. rewrite <- Hd, list_lookup_fmap, Hi. done.
    + apply Forall_insert; [done|].
      eapply writer_step_inv; [|done].
      by apply (proj1 (Forall_lookup _ _) Hw i w).
    + destruct pub.
      * exists w'. split.
        -- apply list_lookup_insert_eq. by eapply lookup_lt_Some.
        -- by apply (writer_step_pub _ _ _ Hws).
      * by eapply slot_ok_insert.
    + eapply Forall_impl; [exact Hr|]. intros [|s|v]; simpl; try done.
      by eapply slot_ok_insert.
    + intros (j & wj & Hj & Hpc). destruct pub; [done|].
      destruct (decide (i = j)) as [->|Hne].
      * rewrite list_lookup_insert_eq in Hj by (by eapply lookup_lt_Some).
        injection Hj as <-.
        apply (writer_step_pub _ _ _ Hws) in Hpc. done.
      * rewrite list_lookup_insert_ne in Hj by done. apply Hp. eauto.
  - split; simpl; try done.
    apply Forall_insert; done.
  - split; simpl; try done.
    apply Forall_insert; [done|]. simpl.
    pose proof (proj1 (Forall_lookup _ _) Hr j _ Hj) as Hsl. simpl in Hsl.
    destruct s as [|i]; [by left|]. right.
    destruct Hsl as (w & Hi & Hpc).
    destruct (deref_published _ _ _ _ _ Hinv Hi Hpc) as [Hreq Hacc].
    eauto.
Qed.

Lemma inv_reachable v0 reqs k c :
  rtc (step v0) (init reqs k) c -> inv v0 reqs c.
Proof.
  revert c. apply rtc_ind_r.
  - apply inv_init.
  - intros c c' _ Hstep IH. by eapply inv_step.
Qed.

(** A step of the schedule is a step of the server, or nothing. *)
Lemma sched_step_spec v0 c t : sched_step v0 c t = c \/ step v0 c (sched_step v0 c t).
Proof.
  destruct t as [i|j]; simpl.
  - destruct (c_writers c !! i) as [w|] eqn:Hi; [|by left].
    destruct (writer_step w) as [[w' pub]|] eqn:Hs; [|by left].
    right. by eapply step_writer.
  - destruct (c_readers c !! j) as [[|s|v]|] eqn:Hj; try by left.
    + right. by apply step_reader_load.
    + right. by apply step_reader_dump.
Qed.

Lemma run_reachable v0 schedule c : rtc (step v0) c (run v0 schedule c).
Proof.
  revert c. induction schedule as [|t schedule IH]; intros c; [done|].
  simpl. destruct (sched_step_spec v0 c t) as [->|Hs]; [apply IH|].
  eapply rtc_l; [exact Hs|apply IH].
Qed.

(** What reader [j] of [c'] is bound to answer, when it had not started in
    a state where the slot already held [s]. *)
Definition reader_bound (v0 : json) (ws : list writer) (s : slot) (r : option reader) : Prop :=
  match r with
  | Some RStart => True
  | Some (RLoaded s') => s' = s
  | Some (RDone v) => v = deref v0 ws s
  | None => True
  end.

(** Once every [/update-view] has returned, nothing stores into the slot
    or into an object any more, and a [/get-bounds] that starts from then
    on answers the value the slot holds. *)
Lemma quiescent v0 c c' :
  Forall writer_done (c_writers c) ->
  rtc (step v0) c c' ->
  c_slot c' = c_slot c /\ c_writers c' = c_writers c
  /\ forall j, c_readers c !! j = Some RStart ->
       reader_bound v0 (c_writers c) (c_slot c) (c_readers c' !! j).
Proof.
  intros Hdone. revert c'. apply rtc_ind_r.
  - split; [done|]. split; [done|]. intros j Hj. by rewrite Hj.
  - intros c1 c2 _ Hstep (Hs & Hw & Hr).
    destruct Hstep as [c1 i w w' pub Hi Hws | c1 j' Hj' | c1 j' s' Hj']; simpl.
    + rewrite Hw in Hi.
      destruct (proj1 (Forall_lookup _ _) Hdone i w Hi) as [r Hpc].
      by destruct (writer_step_not_done _ _ _ Hws r).
    + split; [done|]. split; [done|]. intros j Hj.
      destruct (decide (j = j')) as [->|Hne].
      * rewrite list_lookup_insert_eq by (by eapply lookup_lt_Some). done.
      * rewrite list_lookup_insert_ne by done. by apply Hr.
    + split; [done|]. split; [done|]. intros j Hj.
      destruct (decide (j = j')) as [->|Hne].
      * rewrite list_lookup_insert_eq by (by eapply lookup_lt_Some).
        specialize (Hr _ Hj). rewrite Hj' in Hr. simpl in Hr. simpl.
        by rewrite Hr, Hw.
      * rewrite list_lookup_insert_ne by done. by apply Hr.
Qed.

End ConcurrentFacts.

Section ConcurrentClaims.
Import Register Concurrent ConcurrentFacts.

(** C5.  Let any number of [/update-view] and [/get-bounds] requests run
    concurrently, their statements interleaved in any order, from a state
    where [current_stats['bounds']] is [v0].  Then, in every state the
    server can reach: (1) whatever a [/get-bounds] has answered is [v0] or
    the complete value (the submitted bounds with its zoom) of one of the
    requests; (2) once all the [/update-view] requests have completed, the
    value under [current_stats['bounds']] is the complete value of one of
    them (of none only when none was accepted, and then it is still [v0]);
    (3) a step changes that value, if at all, from one whole value to the
    complete value of a request: the only store into the slot is the
    reference to a finished object; (4) no step modifies an object that a
    reader holds a reference to; (5) once all the [/update-view] requests
    have completed, a [/get-bounds] that starts afterwards answers the
    value of (2), whatever else runs in between. *)
Theorem concurrent_updates_whole_values
    (v0 : json) (reqs : list json) (k : nat) (c : config) :
  rtc (step v0) (init reqs k) c ->
  (forall j v, c_readers c !! j = Some (RDone v) ->
     v = v0 \/ exists i data, reqs !! i = Some data /\ accepted data = Some v)
  /\ (Forall writer_done (c_writers c) ->
       (exists i data, reqs !! i = Some data
                       /\ accepted data = Some (current_bounds v0 c))
       \/ (current_bounds v0 c = v0 /\ Forall (fun data => accepted data = None) reqs))
  /\ (forall c', step v0 c c' ->
       current_bounds v0 c' = current_bounds v0 c
       \/ exists i data, reqs !! i = Some data
                         /\ accepted data = Some (current_bounds v0 c'))
  /\ (forall c' j s, step v0 c c' -> c_readers c !! j = Some (RLoaded s) ->
       deref v0 (c_writers c') s = deref v0 (c_writers c) s)
  /\ (Forall writer_done (c_writers c) ->
       forall c' j v, rtc (step v0) c c' ->
         c_readers c !! j = Some RStart -> c_readers c' !! j = Some (RDone v) ->
         v = current_bounds v0 c).
Proof.
  intros Hreach. pose proof (inv_reachable _ _ _ _ Hreach) as Hinv.
  pose proof Hinv as [Hd Hw Hs Hr Hp].
  split; [|split; [|split; [|split]]].
  - intros j v Hj. exact (proj1 (Forall_lookup _ _) Hr j _ Hj).
  - intros Hdone. unfold current_bounds.
    destruct (c_slot c) as [|i] eqn:Hslot.
    + right. split; [done|]. rewrite <- Hd. apply Forall_fmap.
      apply Forall_lookup. intros i w Hi. simpl.
      destruct (proj1 (Forall_lookup _ _) Hdone i w Hi) as [r Hpc].
      pose proof (proj1 (Forall_lookup _ _) Hw i w Hi) as Hwi.
      unfold writer_inv in Hwi. rewrite Hpc in Hwi.
      destruct (accepted (w_data w)) as [v|]; [|done].
      destruct Hwi as [-> _]. destruct Hp; eauto.
    + left. simpl in Hs. destruct Hs as (w & Hi & Hpc).
      destruct (deref_published _ _ _ _ _ Hinv Hi Hpc) as [Hreq Hacc]. eauto.
  - intros c' Hstep. pose proof (inv_step _ _ _ _ Hinv Hstep) as Hinv'.
    unfold current_bounds.
    destruct Hstep as [c i w w' pub Hi Hws | c j Hj | c j s Hj]; simpl;
      [|by left..].
    destruct pub.
    + right. destruct (inv_slot _ _ _ Hinv') as (w'' & Hi' & Hpc').
      destruct (deref_published _ _ _ _ _ Hinv' Hi' Hpc') as [Hreq Hacc]. eauto.
    + left. by eapply deref_insert.
  - intros c' j s Hstep Hj.
    pose proof (proj1 (Forall_lookup _ _) Hr j _ Hj) as Hsl. simpl in Hsl.
    destruct Hstep as [c i w w' pub Hi Hws | c j' Hj' | c j' s' Hj']; simpl;
      [|done..].
    by eapply deref_insert.
  - intros Hdone c' j v Hrun Hj Hj'.
    destruct (quiescent v0 c c' Hdone Hrun) as (_ & _ & Hq).
    specialize (Hq j Hj). by rewrite Hj' in Hq.
Qed.

End ConcurrentClaims.

(** Two clients report their viewports while a third party polls. *)
Definition sample_updates : list json :=
  [ JObj {[ "bounds" := JObj {[ "north" := JInt 53; "south" := JInt 52;
                                "east" := JInt 6; "west" := JInt 5 ]};
            "zoom" := JInt 12 ]};
    JObj {[ "bounds" := JObj {[ "north" := JInt 48; "south" := JInt 47;
                                "east" := JInt 9; "west" := JInt 8 ]};
            "zoom" := JInt 15 ]} ].

Definition sample_schedule : list (nat + nat) :=
  [inl 0; inl 1; inr 0; inl 1; inl 0; inl 1; inr 0; inl 0]%nat.

Lemma concurrent_updates_whole_values_witness :
  let c := Concurrent.run JNull sample_schedule (Concurrent.init sample_updates 1) in
  rtc (Concurrent.step JNull) (Concurrent.init sample_updates 1) c
  /\ Forall Concurrent.writer_done (Concurrent.c_writers c)
  /\ exists i data, sample_updates !! i = Some data
        /\ Register.accepted data = Some (Concurrent.current_bounds JNull c).
Proof.
  intros c.
  assert (Hreach : rtc (Concurrent.step JNull) (Concurrent.init sample_updates 1) c)
    by apply ConcurrentFacts.run_reachable.
  assert (Hdone : Forall Concurrent.writer_done (Concurrent.c_writers c)).
  { vm_compute. repeat constructor; eexists; reflexivity. }
  split; [exact Hreach|]. split; [exact Hdone|].
  destruct (concurrent_updates_whole_values JNull sample_updates 1 c Hreach)
    as (_ & H & _).
  destruct (H Hdone) as [Hex|[_ Hnone]]; [exact Hex|].
  apply Forall_cons in Hnone as [Hnone _]. vm_compute in Hnone. discriminate Hnone.
Defined.

(** ** Tile arithmetic *)
Module TileMathFacts.
Import PyFloat Tiles TileFormulas.

(** The powers of two that [2.0 ** z] can return for a zoom are not zero. *)
Lemma pow2_nonzero_check :
  forallb (fun z => negb (is_zero (nearest 1 z))) (seqZ 0 1024) = true.
Proof. vm_compute. reflexivity. Qed.

Lemma pow2_nonzero z : 0 <= z < 1024 -> is_zero (nearest 1 z) = false.
Proof.
  intros Hz. apply negb_true_iff.
  pose proof pow2_nonzero_check as H.
  rewrite forallb_forall in H. apply H.
  apply list_elem_of_In, elem_of_seqZ. lia.
Qed.

Lemma of_int_ok i : Z.abs i <= 2 ^ 1023 -> of_int i = Ok (nearest i 0).
Proof.
  intros Hi. unfold of_int.
  assert (2 ^ 1023 < 2 ^ 1024 - 2 ^ 970) by (vm_compute; reflexivity).
  destruct (Z.leb_spec (2 ^ 1024 - 2 ^ 970) (Z.abs i)); [lia|done].
Qed.


Section WithLibm.
Context {libm : Libm}.

(** Inside the grid, up to zoom 1022, no operation of [tile_to_bbox]
    raises, and the four results are the formulas. *)
Lemma tile_to_bbox_returns (z x y : Z) :
  0 <= z <= 1022 -> 0 <= x < 2 ^ z -> 0 <= y < 2 ^ z ->
  tile_to_bbox z x y = Ok (lon z x, lat z (y + 1), lon z (x + 1), lat z y).
Proof.
  intros Hz Hx Hy.
  assert (Hp : 2 ^ z <= 2 ^ 1022) by (apply Z.pow_le_mono_r; lia).
  assert (H2 : 2 ^ 1023 = 2 * 2 ^ 1022) by (vm_compute; reflexivity).
  assert (Hn : pow2 z = Ok (nearest 1 z)).
  { unfold pow2. destruct (Z.leb_spec 1024 z); [lia|done]. }
  assert (Hd : forall a, div a (nearest 1 z) = Ok (SFdiv prec emax a (nearest 1 z))).
  { intros a. unfold div. by rewrite (pow2_nonzero z) by lia. }
  unfold tile_to_bbox. rewrite Hn. cbn [mbind result_bind].
  rewrite !of_int_ok by lia. cbn [mbind result_bind].
  rewrite !Hd. reflexivity.
Qed.

(** The world tile: the longitudes are exact, the latitudes are those of
    [-pi] and [pi]. *)
Lemma tile_to_bbox_world :
  tile_to_bbox 0 0 0 =
    Ok (nearest (-180) 0, degrees (math_atan (math_sinh (SFopp pi))),
        nearest 180 0, degrees (math_atan (math_sinh pi))).
Proof.
  rewrite tile_to_bbox_returns by (split; (lia || reflexivity)).
  assert (Hw : lon 0 0 = nearest (-180) 0) by (vm_compute; reflexivity).
  assert (He : lon 0 (0 + 1) = nearest 180 0) by (vm_compute; reflexivity).
  assert (Hs : mul pi (sub one (SFdiv prec emax (nearest (2 * (0 + 1)) 0) (nearest 1 0)))
               = SFopp pi) by (vm_compute; reflexivity).
  assert (Hn : mul pi (sub one (SFdiv prec emax (nearest (2 * 0) 0) (nearest 1 0)))
               = pi) by (vm_compute; reflexivity).
  unfold lat. by rewrite Hw, He, Hs, Hn.
Qed.


(** Whenever [tile_to_bbox] returns, it returns the four formulas. *)
Lemma tile_to_bbox_inv (z x y : Z) (b : bbox) :
  tile_to_bbox z x y = Ok b ->
  b = (lon z x, lat z (y + 1), lon z (x + 1), lat z y).
Proof.
  unfold tile_to_bbox, pow2, of_int, div, lon, lat. intros H.
  destruct (1024 <=? z); [done|]. cbn [mbind result_bind] in H.
  destruct (_ <=? Z.abs x); [done|]. cbn [mbind result_bind] in H.
  destruct (is_zero (nearest 1 z)); [done|]. cbn [mbind result_bind] in H.
  destruct (_ <=? Z.abs (x + 1)); [done|]. cbn [mbind result_bind] in H.
  destruct (_ <=? Z.abs (2 * y)); [done|]. cbn [mbind result_bind] in H.
  destruct (_ <=? Z.abs (2 * (y + 1))); [done|]. cbn [mbind result_bind] in H.
  by injection H as <-.
Qed.



End WithLibm.

End TileMathFacts.

(** ** Binary64 arithmetic where it is exact *)
Module Binary64Facts.
Import PyFloat.

(** *** Digits and shifts *)

Lemma digits2_size p : digits2_pos p = Pos.size p.
Proof. induction p; simpl; congruence. Qed.

Lemma digits_bounds p :
  2 ^ (Z.pos (digits2_pos p) - 1) <= Z.pos p < 2 ^ Z.pos (digits2_pos p).
Proof.
  rewrite digits2_size. split.
  - pose proof (Pos.size_le p) as H.
    assert (Hz : Z.pos (2 ^ Pos.size p) <= Z.pos (p~0)) by exact H.
    rewrite Pos2Z.inj_pow in Hz.
    replace (Z.pos (Pos.size p)) with (Z.pos (Pos.size p) - 1 + 1) in Hz by lia.
    rewrite Z.pow_add_r, Z.pow_1_r in Hz by lia. lia.
  - pose proof (Pos.size_gt p) as H.
    assert (Hz : Z.pos p < Z.pos (2 ^ Pos.size p)) by exact H.
    by rewrite Pos2Z.inj_pow in Hz.
Qed.

(** The number of digits is determined by the enclosing powers of two. *)
Lemma digits_unique p d :
  2 ^ (d - 1) <= Z.pos p < 2 ^ d -> Z.pos (digits2_pos p) = d.
Proof.
  intros [Hlo Hhi]. pose proof (digits_bounds p) as [Hlo' Hhi'].
  assert (0 < d).
  { destruct (Z.lt_ge_cases 0 d); [done|].
    assert (2 ^ d <= 2 ^ 0) by (apply Z.pow_le_mono_r; lia). simpl in *. lia. }
  destruct (Z.lt_trichotomy (Z.pos (digits2_pos p)) d) as [Hlt|[Heq|Hgt]]; [|done|].
  - assert (2 ^ Z.pos (digits2_pos p) <= 2 ^ (d - 1))
      by (apply Z.pow_le_mono_r; lia). lia.
  - assert (2 ^ d <= 2 ^ (Z.pos (digits2_pos p) - 1))
      by (apply Z.pow_le_mono_r; lia). lia.
Qed.

Lemma iter_xO p n : Z.pos (Pos.iter xO p n) = Z.pos p * 2 ^ Z.pos n.
Proof.
  induction n as [|n IH] using Pos.peano_ind.
  - simpl. lia.
  - rewrite Pos.iter_succ, Pos2Z.inj_xO, IH, Pos2Z.inj_succ, Z.pow_succ_r by lia. lia.
Qed.

Lemma digits_iter_xO p n :
  Z.pos (digits2_pos (Pos.iter xO p n)) = Z.pos (digits2_pos p) + Z.pos n.
Proof.
  induction n as [|n IH] using Pos.peano_ind.
  - simpl. lia.
  - rewrite Pos.iter_succ. simpl digits2_pos. rewrite Pos2Z.inj_succ, IH. lia.
Qed.

(** *** Shifting right a mantissa whose low bits are zero *)

Lemma iter_pos_swap {A} (f : A -> A) p x : SpecFloat.iter_pos f p (f x) = f (SpecFloat.iter_pos f p x).
Proof.
  revert x. induction p as [p IH|p IH|]; intros x; simpl; [|by rewrite !IH|done].
  by rewrite !IH.
Qed.

Lemma iter_pos_succ {A} (f : A -> A) p x :
  SpecFloat.iter_pos f (Pos.succ p) x = SpecFloat.iter_pos f p (f x).
Proof.
  revert x. induction p as [p IH|p IH|]; intros x; simpl; [|done|done].
  rewrite !IH. by rewrite !iter_pos_swap.
Qed.

Lemma shr_exact k n :
  SpecFloat.iter_pos shr_1 n (Build_shr_record (Z.pos (Pos.iter xO k n)) false false)
  = Build_shr_record (Z.pos k) false false.
Proof.
  induction n as [|n IH] using Pos.peano_ind.
  - reflexivity.
  - rewrite iter_pos_succ, Pos.iter_succ. simpl shr_1. exact IH.
Qed.

(** *** Rounding a mantissa that needs none *)

Lemma fexp_normal e : -1021 <= e -> fexp prec emax e = e - 53.
Proof. intros He. unfold fexp, emin, prec, emax. lia. Qed.

(** A mantissa of exactly 53 digits is kept. *)
Lemma round_aux_53 s k e :
  Z.pos (digits2_pos k) = 53 -> -1074 <= e <= 971 ->
  binary_round_aux prec emax s (Z.pos k) e loc_Exact = S754_finite s k e.
Proof.
  intros Hk He. unfold binary_round_aux, shr_fexp. simpl Zdigits2.
  rewrite Hk, fexp_normal by lia.
  replace (53 + e - 53 - e) with 0 by lia. simpl.
  rewrite Hk, fexp_normal by lia.
  replace (53 + e - 53 - e) with 0 by lia. simpl.
  unfold emax, prec. destruct (Z.leb_spec e (1024 - 53)); [done|lia].
Qed.

(** A longer mantissa whose extra low bits are zero is shifted. *)
Lemma round_aux_shift s k n e :
  Z.pos (digits2_pos k) = 53 -> -1074 <= e + Z.pos n <= 971 ->
  binary_round_aux prec emax s (Z.pos (Pos.iter xO k n)) e loc_Exact
  = S754_finite s k (e + Z.pos n).
Proof.
  intros Hk He. unfold binary_round_aux, shr_fexp. simpl Zdigits2.
  rewrite digits_iter_xO, Hk, fexp_normal by lia.
  replace (53 + Z.pos n + e - 53 - e) with (Z.pos n) by lia.
  unfold shr at 1. simpl shr_record_of_loc. rewrite shr_exact.
  simpl loc_of_shr_record. simpl round_nearest_even. simpl Zdigits2.
  rewrite Hk, fexp_normal by lia.
  replace (53 + (e + Z.pos n) - 53 - (e + Z.pos n)) with 0 by lia. simpl.
  unfold emax, prec. destruct (Z.leb_spec (e + Z.pos n) (1024 - 53)); [done|lia].
Qed.

(** [j * 2^t], on positive numbers. *)
Definition shl (j : positive) (t : Z) : positive :=
  match t with
  | Z.pos n => Pos.iter xO j n
  | _ => j
  end.

Lemma shl_val j t : 0 <= t -> Z.pos (shl j t) = Z.pos j * 2 ^ t.
Proof.
  intros Ht. destruct t as [|n|n]; [simpl; lia| |lia].
  simpl shl. apply iter_xO.
Qed.

Lemma shl_digits j t :
  0 <= t -> Z.pos (digits2_pos (shl j t)) = Z.pos (digits2_pos j) + t.
Proof.
  intros Ht. destruct t as [|n|n]; [simpl; lia| |lia].
  simpl shl. apply digits_iter_xO.
Qed.

Lemma shl_shl j a b : 0 <= a -> 0 <= b -> shl (shl j a) b = shl j (a + b).
Proof.
  intros Ha Hb. apply Pos2Z.inj.
  rewrite !shl_val, Z.pow_add_r by lia. lia.
Qed.

Lemma round_aux_exact s k n e :
  Z.pos (digits2_pos k) = 53 -> 0 <= n -> -1074 <= e + n <= 971 ->
  binary_round_aux prec emax s (Z.pos (shl k n)) e loc_Exact
  = S754_finite s k (e + n).
Proof.
  intros Hk Hn He. destruct n as [|n|n]; [|..|lia].
  - simpl shl. rewrite Z.add_0_r in *. by apply round_aux_53.
  - by apply round_aux_shift.
Qed.

(** The canonical binary64 representation of [j * 2^e], for a positive
    [j] of at most 53 digits. *)
Definition canon (s : bool) (j : positive) (e : Z) : float :=
  let t := 53 - Z.pos (digits2_pos j) in
  S754_finite s (shl j t) (e - t).

Lemma shl_align_spec m e e' : shl_align m e e' = (shl m (e - e'), Z.min e e').
Proof.
  unfold shl_align, shl.
  destruct (e' - e) as [|d|d] eqn:Hd.
  - replace (e - e') with 0 by lia. f_equal. lia.
  - replace (e - e') with (Z.neg d) by lia. f_equal. lia.
  - replace (e - e') with (Z.pos d) by lia. f_equal. lia.
Qed.

(** Rounding [j * 2^t * 2^e] when [j] has at most 53 digits. *)
Lemma round_exact s j t e :
  Z.pos (digits2_pos j) <= 53 -> 0 <= t ->
  -1074 <= e + t - (53 - Z.pos (digits2_pos j)) <= 971 ->
  binary_round prec emax s (shl j t) e = canon s j (e + t).
Proof.
  intros Hd Ht He. unfold binary_round, canon.
  set (d := Z.pos (digits2_pos j)) in *.
  assert (Hk : Z.pos (digits2_pos (shl j (53 - d))) = 53)
    by (rewrite shl_digits by lia; fold d; lia).
  rewrite shl_align_spec, shl_digits by lia. fold d.
  rewrite fexp_normal by lia.
  destruct (Z.le_gt_cases (d + t) 53) as [Hle|Hgt].
  - rewrite shl_shl by lia.
    replace (t + (e - (d + t + e - 53))) with (53 - d) by lia.
    rewrite Z.min_r by lia.
    rewrite round_aux_53 by lia. f_equal. lia.
  - replace (e - (d + t + e - 53)) with (Z.neg (Z.to_pos (d + t - 53))) by lia.
    simpl shl at 1. rewrite Z.min_l by lia.
    replace (shl j t) with (shl (shl j (53 - d)) (t - (53 - d)))
      by (rewrite shl_shl by lia; f_equal; lia).
    rewrite round_aux_exact by lia. f_equal. lia.
Qed.

Lemma nearest_pos j e :
  Z.pos (digits2_pos j) <= 53 ->
  -1074 <= e - (53 - Z.pos (digits2_pos j)) <= 971 ->
  nearest (Z.pos j) e = canon false j e.
Proof.
  intros Hd He. unfold nearest, binary_normalize.
  pose proof (round_exact false j 0 e Hd) as H.
  rewrite Z.add_0_r in H. apply H; lia.
Qed.

Lemma nearest_neg j e :
  Z.pos (digits2_pos j) <= 53 ->
  -1074 <= e - (53 - Z.pos (digits2_pos j)) <= 971 ->
  nearest (Z.neg j) e = canon true j e.
Proof.
  intros Hd He. unfold nearest, binary_normalize.
  pose proof (round_exact true j 0 e Hd) as H.
  rewrite Z.add_0_r in H. apply H; lia.
Qed.

(** *** The three operations of the longitude, where they are exact *)

Lemma pow2_canon z : -1022 <= z <= 1023 -> nearest 1 z = S754_finite false (shl 1 52) (z - 52).
Proof. intros Hz. by rewrite nearest_pos by (simpl; lia). Qed.

Lemma div_eucl_exact a b : 0 < b -> Z.div_eucl (a * b) b = (a, 0).
Proof.
  intros Hb. destruct (Z.div_eucl (a * b) b) as [q r] eqn:E.
  assert (Hq : q = (a * b) / b) by (unfold Z.div; by rewrite E).
  assert (Hr : r = (a * b) mod b) by (unfold Z.modulo; by rewrite E).
  rewrite Z.div_mul in Hq by lia. rewrite Z.mod_mul in Hr by lia. by subst.
Qed.

(** Dividing by a power of two moves the exponent. *)
Lemma div_pow2_exact s k e z :
  Z.pos (digits2_pos k) = 53 -> 0 <= z <= 1023 ->
  -1021 + z <= e + 52 -> -1074 <= e - z <= 971 ->
  SFdiv prec emax (S754_finite s k e) (S754_finite false (shl 1 52) (z - 52))
  = S754_finite s k (e - z).
Proof.
  intros Hk Hz He1 He2.
  assert (Hd2 : Z.pos (digits2_pos (shl 1 52)) = 53) by reflexivity.
  assert (Hv2 : Z.pos (shl 1 52) = 2 ^ 52) by reflexivity.
  assert (Hl2 : new_location (Z.pos (shl 1 52)) 0 = loc_Exact) by reflexivity.
  set (m2 := shl 1 52) in *. clearbody m2.
  unfold SFdiv, SFdiv_core_binary.
  change (Zdigits2 (Z.pos k)) with (Z.pos (digits2_pos k)).
  change (Zdigits2 (Z.pos m2)) with (Z.pos (digits2_pos m2)).
  rewrite Hk, Hd2. rewrite fexp_normal by lia.
  replace (Z.min (53 + e - (53 + (z - 52)) - 53) (e - (z - 52)))
    with (e - z - 1) by lia.
  replace (e - (z - 52) - (e - z - 1)) with 53 by lia.
  cbv iota. rewrite Z.shiftl_mul_pow2 by lia.
  replace (Z.pos k * 2 ^ 53) with (Z.pos (shl k 1) * Z.pos m2)
    by (rewrite (shl_val k 1), Hv2 by lia; lia).
  rewrite div_eucl_exact by lia. rewrite Hl2.
  rewrite round_aux_exact by lia.
  rewrite xorb_false_r. f_equal. lia.
Qed.

(** A product whose exact value has at most 53 digits. *)
Lemma mul_exact sa a ea sb b eb :
  Z.pos (digits2_pos (a * b)) <= 53 ->
  -1074 <= ea + eb - (53 - Z.pos (digits2_pos (a * b))) <= 971 ->
  let ta := 53 - Z.pos (digits2_pos a) in
  let tb := 53 - Z.pos (digits2_pos b) in
  mul (S754_finite sa (shl a ta) (ea - ta)) (S754_finite sb (shl b tb) (eb - tb))
  = canon (xorb sa sb) (a * b) (ea + eb).
Proof.
  intros Hd He ta tb. unfold mul, SFmul.
  assert (Hab : Z.pos (digits2_pos a) + Z.pos (digits2_pos b) - 1
                <= Z.pos (digits2_pos (a * b))).
  { pose proof (digits_bounds a) as [Ha _]. pose proof (digits_bounds b) as [Hb _].
    pose proof (digits_bounds (a * b)) as [_ Hab].
    destruct (Z.lt_ge_cases (Z.pos (digits2_pos (a * b)))
                (Z.pos (digits2_pos a) + Z.pos (digits2_pos b) - 1)) as [Hlt|]; [|done].
    assert (2 ^ Z.pos (digits2_pos (a * b))
            <= 2 ^ (Z.pos (digits2_pos a) - 1 + (Z.pos (digits2_pos b) - 1)))
      by (apply Z.pow_le_mono_r; lia).
    rewrite Z.pow_add_r in H by lia.
    rewrite Pos2Z.inj_mul in Hab. nia. }
  assert (Hta : 0 <= ta) by (unfold ta; lia).
  assert (Htb : 0 <= tb) by (unfold tb; lia).
  set (tab := 53 - Z.pos (digits2_pos (a * b))).
  replace (shl a ta * shl b tb)%positive
    with (shl (shl (a * b) tab) (ta + tb - tab)).
  2:{ apply Pos2Z.inj. rewrite Pos2Z.inj_mul, !shl_val by (unfold tab; lia).
      rewrite Pos2Z.inj_mul.
      assert (Hp : 2 ^ ta * 2 ^ tb = 2 ^ tab * 2 ^ (ta + tb - tab)).
      { rewrite <- !Z.pow_add_r by (unfold tab; lia). f_equal. lia. }
      transitivity (Z.pos a * Z.pos b * (2 ^ ta * 2 ^ tb)); [rewrite Hp|]; ring. }
  rewrite round_aux_exact.
  - unfold canon. fold tab. f_equal. lia.
  - rewrite shl_digits by (unfold tab; lia). unfold tab. lia.
  - unfold tab, ta, tb. lia.
  - unfold tab, ta, tb in *. lia.
Qed.

(** *** The same facts on [nearest] *)

Lemma digits_le p d : 0 <= d -> Z.pos p < 2 ^ d -> Z.pos (digits2_pos p) <= d.
Proof.
  intros Hd Hp. pose proof (digits_bounds p) as [Hlo _].
  destruct (Z.le_gt_cases (Z.pos (digits2_pos p)) d) as [|Hgt]; [done|].
  assert (2 ^ d <= 2 ^ (Z.pos (digits2_pos p) - 1))
    by (apply Z.pow_le_mono_r; lia). lia.
Qed.

(** [nearest] of a number with at most 53 digits depends on its value
    only. *)
Lemma nearest_scaled j t e :
  Z.abs j < 2 ^ 53 -> 0 <= t -> -1021 <= e + t <= 971 ->
  nearest (j * 2 ^ t) e = nearest j (e + t).
Proof.
  intros Hj Ht He. destruct j as [|p|p].
  - reflexivity.
  - pose proof (digits_le p 53) as Hd. pose proof (Pos2Z.is_pos (digits2_pos p)).
    rewrite <- shl_val by done. rewrite (nearest_pos p) by lia.
    unfold nearest, binary_normalize. apply round_exact; lia.
  - pose proof (digits_le p 53) as Hd. pose proof (Pos2Z.is_pos (digits2_pos p)).
    replace (Z.neg p * 2 ^ t) with (Z.neg (shl p t))
      by (rewrite <- Pos2Z.opp_pos, shl_val by done; lia).
    rewrite (nearest_neg p) by lia.
    unfold nearest, binary_normalize. apply round_exact; lia.
Qed.

Lemma div_pow2_nearest x z :
  0 <= x < 2 ^ 53 -> 0 <= z <= 900 ->
  SFdiv prec emax (nearest x 0) (nearest 1 z) = nearest x (- z).
Proof.
  intros Hx Hz. rewrite pow2_canon by lia.
  destruct x as [|p|p]; [reflexivity| |lia].
  pose proof (digits_le p 53) as Hd. pose proof (Pos2Z.is_pos (digits2_pos p)).
  rewrite !nearest_pos by lia. unfold canon.
  rewrite div_pow2_exact; [f_equal; lia|..]; try lia.
  rewrite shl_digits by lia. lia.
Qed.

Lemma mul_nearest a ea b eb :
  0 <= a -> 0 < b < 2 ^ 53 -> a * b < 2 ^ 53 ->
  -1021 <= ea <= 971 -> -1021 <= eb <= 971 -> -1021 <= ea + eb <= 971 ->
  mul (nearest a ea) (nearest b eb) = nearest (a * b) (ea + eb).
Proof.
  intros Ha Hb Hab Hea Heb He.
  destruct b as [|q|q]; [lia| |lia].
  assert (Hq : Z.pos (digits2_pos q) <= 53) by (apply digits_le; lia).
  pose proof (Pos2Z.is_pos (digits2_pos q)).
  destruct a as [|p|p]; [|..|lia].
  - rewrite (nearest_pos q) by lia. reflexivity.
  - assert (Hp : Z.pos (digits2_pos p) <= 53) by (apply digits_le; nia).
    assert (Hpq : Z.pos (digits2_pos (p * q)) <= 53)
      by (apply digits_le; [lia|]; rewrite Pos2Z.inj_mul; lia).
    pose proof (Pos2Z.is_pos (digits2_pos p)).
    pose proof (Pos2Z.is_pos (digits2_pos (p * q))).
    rewrite (nearest_pos p), (nearest_pos q) by lia.
    change (Z.pos p * Z.pos q) with (Z.pos (p * q)).
    rewrite (nearest_pos (p * q)) by lia.
    unfold canon at 1 2. apply mul_exact; lia.
Qed.

Lemma sub_finite sa ma ea sb mb eb :
  sub (S754_finite sa ma ea) (S754_finite sb mb eb)
  = nearest (cond_Zopp sa (Z.pos ma * 2 ^ (ea - Z.min ea eb))
             - cond_Zopp sb (Z.pos mb * 2 ^ (eb - Z.min ea eb)))
            (Z.min ea eb).
Proof.
  unfold sub, SFsub, nearest. rewrite !shl_align_spec. simpl fst.
  rewrite !shl_val by lia. reflexivity.
Qed.

(** *** Order *)




(** *** The longitude, in closed form

    Up to zoom 47 the three operations of [x / n * 360.0 - 180.0] are
    exact: the result is the binary64 number [45 * (2x - 2^z) * 2^(2-z)]. *)
Lemma lon_closed_form z x :
  0 <= z <= 47 -> 0 <= x <= 2 ^ z ->
  TileFormulas.lon z x = nearest (45 * (2 * x - 2 ^ z)) (2 - z).
Proof.
  intros Hz Hx. unfold TileFormulas.lon.
  assert (Hp : 2 ^ z <= 2 ^ 47) by (apply Z.pow_le_mono_r; lia).
  assert (Hp0 : 0 < 2 ^ z) by (apply Z.pow_pos_nonneg; lia).
  rewrite div_pow2_nearest by lia.
  replace f360 with (nearest 45 3) by reflexivity.
  rewrite mul_nearest by lia.
  replace f180 with (S754_finite false (shl 45 47) (-45)) by reflexivity.
  destruct (x * 45) as [|p|p] eqn:Hxp; [|..|lia].
  - assert (x = 0) by lia. subst x.
    replace (45 * (2 * 0 - 2 ^ z)) with ((-45) * 2 ^ z) by lia.
    rewrite (nearest_scaled (-45) z (2 - z)) by lia.
    replace (2 - z + z) with 2 by lia. reflexivity.
  - pose proof (digits_le p 53) as Hd. pose proof (Pos2Z.is_pos (digits2_pos p)).
    rewrite (nearest_pos p) by lia. unfold canon.
    set (tp := 53 - Z.pos (digits2_pos p)) in *.
    rewrite sub_finite. set (ez := Z.min (- z + 3 - tp) (-45)).
    simpl cond_Zopp. rewrite !shl_val by lia.
    change (Z.pos 45 * 2 ^ 47) with 6333186975989760.
    assert (HM : Z.pos p * 2 ^ tp * 2 ^ (- z + 3 - tp - ez)
                 - 6333186975989760 * 2 ^ (-45 - ez)
                 = 45 * (2 * x - 2 ^ z) * 2 ^ (2 - z - ez)).
    { change 6333186975989760 with (45 * 2 ^ 47).
      rewrite <- !Z.mul_assoc, <- !Z.pow_add_r by (unfold ez; lia).
      replace (tp + (- z + 3 - tp - ez)) with (1 + (2 - z - ez)) by lia.
      replace (47 + (-45 - ez)) with (z + (2 - z - ez)) by lia.
      rewrite !Z.pow_add_r by (unfold ez; lia). rewrite Z.pow_1_r, <- Hxp. ring. }
    rewrite HM, nearest_scaled by (unfold ez; lia). f_equal. lia.
Qed.


End Binary64Facts.

Module Binary64Values.
Import PyFloat Binary64Facts TileFormulas.





End Binary64Values.

Module ExactFacts.
Import TileFormulas.
#[local] Open Scope R_scope.

(** *** Enclosures of [PI], [exp] and [atan] by partial sums *)



















End ExactFacts.

Section TileMathClaims.
Import PyFloat Tiles TileFormulas TileMathFacts Binary64Facts Binary64Values ExactFacts.
Context {libm : Libm}.



End TileMathClaims.





(* ================================================================== *)
(** * Further properties *)

(** ** The tile endpoint on a worker thread *)
Module TileThreadFacts.
Import PyFloat Tiles TileThread.

Definition connects (evs : list event) : nat := length (filter is_connect evs).
Definition raised (rs : list (result response)) : nat := length (filter is_raise rs).

Lemma connects_app evs evs' : connects (evs ++ evs') = (connects evs + connects evs')%nat.
Proof. unfold connects. by rewrite filter_app, length_app. Qed.

Lemma connects_cons ev evs :
  connects (ev :: evs) = ((if is_connect ev then 1 else 0) + connects evs)%nat.
Proof. unfold connects. rewrite filter_cons. by destruct ev. Qed.

Section WithLibm.
Context {libm : Libm}.

Lemma query_tile_connects db con z x y b : connects (query_tile db con z x y b).2 = 0%nat.
Proof.
  unfold query_tile.
  destruct (open_cursor db con) as [cur|e]; [|done].
  by destruct (fetchone db cur _) as [row|e].
Qed.

(** With a connection at hand a request opens none. *)
Lemma get_tile_connected db z x y con :
  (get_tile db z x y (Some con)).1.2 = Some con
  /\ connects (get_tile db z x y (Some con)).2 = 0%nat.
Proof.
  unfold get_tile. destruct (z <? 10); [done|].
  destruct (tile_to_bbox z x y) as [b|e]; [|done]. simpl.
  pose proof (query_tile_connects db con z x y b) as Hq.
  destruct (query_tile db con z x y b) as [[r|e] evs']; cbn [fst snd app] in *.
  - split; [done|]. by rewrite connects_cons.
  - split; [done|]. by rewrite connects_cons, connects_app, Hq.
Qed.

(** Without one, a request opens at most one, and when it does it either
    keeps it or ends with an exception. *)
Lemma get_tile_unconnected db z x y :
  (connects (get_tile db z x y None).2 <= 1)%nat
  /\ (connects (get_tile db z x y None).2 = 1%nat ->
      is_raise (get_tile db z x y None).1.1 = true
      \/ is_Some (get_tile db z x y None).1.2)
  /\ (connects (get_tile db z x y None).2 = 0%nat ->
      (get_tile db z x y None).1.2 = None).
Proof.
  unfold get_tile. destruct (z <? 10); [split; [cbv; lia|done]|].
  destruct (tile_to_bbox z x y) as [b|e]; [|split; [cbv; lia|done]].
  unfold get_connection.
  destruct (connect db) as [con|e]; [|split; [cbv; lia|split; [by left|done]]].
  destruct (load_spatial db con) as [[]|e];
    [|split; [cbv; lia|split; [by left|done]]].
  pose proof (query_tile_connects db con z x y b) as Hq.
  destruct (query_tile db con z x y b) as [[r|e] evs']; cbn [fst snd app] in *.
  - rewrite !connects_cons, Hq. cbn [is_connect].
    split; [lia|split; [by right|done]].
  - rewrite !connects_cons, connects_app, !connects_cons, Hq. cbn [is_connect].
    change (connects []) with 0%nat.
    split; [lia|split; [by right|done]].
Qed.

Lemma serve_cons db z x y reqs tl :
  serve db ((z, x, y) :: reqs) tl =
    ((get_tile db z x y tl).1.1 :: (serve db reqs (get_tile db z x y tl).1.2).1.1,
     (serve db reqs (get_tile db z x y tl).1.2).1.2,
     (get_tile db z x y tl).2 ++ (serve db reqs (get_tile db z x y tl).1.2).2).
Proof.
  simpl. destruct (get_tile db z x y tl) as [[r tl1] evs]. simpl.
  by destruct (serve db reqs tl1) as [[rs tl2] evs'].
Qed.

Lemma serve_connected db reqs con :
  (serve db reqs (Some con)).1.2 = Some con
  /\ connects (serve db reqs (Some con)).2 = 0%nat.
Proof.
  induction reqs as [|[[z x] y] reqs IH]; [done|].
  rewrite serve_cons. cbn [fst snd].
  destruct (get_tile_connected db z x y con) as [-> Hc].
  destruct IH as [IH1 IH2]. split; [done|].
  by rewrite connects_app, Hc, IH2.
Qed.

Lemma serve_connects db reqs tl :
  (connects (serve db reqs tl).2 <= 1 + raised (serve db reqs tl).1.1)%nat.
Proof.
  revert tl. induction reqs as [|[[z x] y] reqs IH]; intros tl; [cbv; lia|].
  rewrite serve_cons. cbn [fst snd]. rewrite connects_app.
  destruct tl as [con|].
  - destruct (get_tile_connected db z x y con) as [-> Hc].
    destruct (serve_connected db reqs con) as [_ Hs]. rewrite Hc, Hs. lia.
  - destruct (get_tile_unconnected db z x y) as (Hle & Hone & Hzero).
    specialize (IH (get_tile db z x y None).1.2).
    unfold raised in *. rewrite filter_cons.
    destruct (connects (get_tile db z x y None).2) as [|[|n]] eqn:Hn; [| |lia].
    + destruct (decide _); simpl; lia.
    + destruct (Hone eq_refl) as [Hr|[con Hcon]].
      * rewrite decide_True by (by rewrite Hr). simpl. lia.
      * rewrite Hcon. destruct (serve_connected db reqs con) as [_ ->].
        destruct (decide _); simpl; lia.
Qed.

End WithLibm.

End TileThreadFacts.

Section TileThreadProperties.
Import PyFloat Tiles TileThread TileThreadFacts.
Context {libm : Libm}.

(** X1.  One connection per thread.  Over the requests a thread serves, in any
    number and for any tiles: a thread that has a connection keeps it and
    never opens the database again; and a thread opens the database at most
    once more than the number of its requests that ended with an exception
    (with a database that opens, at most once).  *)
Theorem thread_opens_database_once
    (db : store) (reqs : list (Z * Z * Z)) (tl : option conn) (con : conn) :
  (serve db reqs (Some con)).1.2 = Some con
  /\ connects (serve db reqs (Some con)).2 = 0%nat
  /\ (connects (serve db reqs tl).2 <= 1 + raised (serve db reqs tl).1.1)%nat.
Proof.
  destruct (serve_connected db reqs con) as [H1 H2].
  split; [done|]. split; [done|]. apply serve_connects.
Qed.

(** X2.  The exceptions that leave [get_tile] are those raised before its [try]
    block, by the bounding box or by the connection, and no others:
    nothing raised by the cursor or by the query leaves the handler, and
    below zoom 10 nothing is raised at all. *)
Theorem get_tile_raises_before_try_only
    (db : store) (z x y : Z) (tl : option conn) (e : exn) :
  (get_tile db z x y tl).1.1 = Raise e
  <-> 10 <= z
      /\ (tile_to_bbox z x y = Raise e
          \/ (exists b, tile_to_bbox z x y = Ok b)
             /\ tl = None
             /\ (connect db = Raise e
                 \/ exists con, connect db = Ok con /\ load_spatial db con = Raise e)).
Proof.
  unfold get_tile. destruct (z <? 10) eqn:Hz.
  - apply Z.ltb_lt in Hz. simpl. split; [done|]. intros [? _]. lia.
  - apply Z.ltb_ge in Hz.
    destruct (tile_to_bbox z x y) as [b|e0]; simpl.
    + unfold get_connection. destruct tl as [con|].
      * destruct (query_tile db con z x y b) as [[r|e1] evs']; simpl;
          (split; [done|]); intros (_ & [?|(_ & ? & _)]); done.
      * destruct (connect db) as [con|e1]; simpl.
        -- destruct (load_spatial db con) as [[]|e1] eqn:Hl; simpl.
           ++ destruct (query_tile db con z x y b) as [[r|e1] evs']; simpl;
                (split; [done|]);
                intros (_ & [?|(_ & _ & [?|(con' & [= <-] & ?)])]); congruence.
           ++ split.
              ** intros [= ->]. split; [done|]. right. split; [eauto|].
                 split; [done|]. right. eauto.
              ** intros (_ & [?|(_ & _ & [?|(con' & [= <-] & ?)])]); congruence.
        -- split.
           ++ intros [= ->]. split; [done|]. right. split; [eauto|].
              split; [done|]. by left.
           ++ intros (_ & [?|(_ & _ & [?|(con' & ? & _)])]); congruence.
    + split.
      * intros [= ->]. split; [done|]. by left.
      * intros (_ & [?|((b & ?) & _)]); congruence.
Qed.

(** X3.  A failure of the store inside the [try] block.  At zoom 10 or above,
    with the bounding box computed and the connection [con] obtained, if
    [con.cursor()] raises [e], or the cursor is there and the query raises
    [e], the answer is the empty 200 response, the error line and the
    traceback of [e] are the last things printed, and the thread keeps the
    connection for its next request. *)
Theorem get_tile_store_failure_degrades
    (db : store) (z x y : Z) (tl tl' : option conn) (b : bbox) (con : conn)
    (evs : list event) (e : exn) :
  10 <= z ->
  tile_to_bbox z x y = Ok b ->
  get_connection db tl = (Ok con, tl', evs) ->
  (open_cursor db con = Raise e
   \/ exists cur, open_cursor db con = Ok cur
        /\ fetchone db cur (TileQuery z x y (min_lon b) (min_lat b) (max_lon b) (max_lat b))
           = Raise e) ->
  (get_tile db z x y tl).1.1 = Ok empty_tile
  /\ (get_tile db z x y tl).1.2 = Some con
  /\ exists evs',
       (get_tile db z x y tl).2 =
         evs' ++ [EvPrint (LogError z x y e); EvPrint (LogTraceback e)].
Proof.
  intros Hz Hb Hc Hfail. unfold get_tile.
  replace (z <? 10) with false by (symmetry; apply Z.ltb_ge; lia).
  rewrite Hb, Hc.
  assert (Htl : tl' = Some con).
  { unfold get_connection in Hc. destruct tl as [c|]; [by injection Hc as <- <- _|].
    destruct (connect db) as [c|]; [|done].
    destruct (load_spatial db c) as [[]|]; [|done]. by injection Hc as <- <- _. }
  unfold query_tile.
  destruct Hfail as [Hcur|(cur & Hcur & Hq)]; rewrite Hcur; [|rewrite Hq]; simpl.
  - split; [done|]. split; [done|].
    exists (EvBBox z x y :: evs ++ [EvCursor con]).
    by rewrite <- !app_comm_cons, <- !app_assoc.
  - split; [done|]. split; [done|].
    eexists (EvBBox z x y :: evs ++ [EvCursor con; EvQuery cur _]).
    by rewrite <- !app_comm_cons, <- !app_assoc.
Qed.

(** X4.  An empty result is not an error.  When the query returns, the answer
    carries the vector-tile content type and the cache header whatever the
    row is; its body is the blob of the row, and it is empty exactly when
    there is no row, the row holds NULL, or the blob has no bytes.  The
    thread keeps its connection and nothing is printed but the timing
    line. *)
Theorem get_tile_empty_result_is_cacheable
    (db : store) (z x y : Z) (tl tl' : option conn) (b : bbox) (con : conn)
    (cur : cursor) (evs : list event) (row : option (option (list Byte.byte))) :
  10 <= z ->
  tile_to_bbox z x y = Ok b ->
  get_connection db tl = (Ok con, tl', evs) ->
  open_cursor db con = Ok cur ->
  fetchone db cur (TileQuery z x y (min_lon b) (min_lat b) (max_lon b) (max_lat b))
    = Ok row ->
  get_tile db z x y tl =
    (Ok (tile_response (tile_data_of row)), tl',
     EvBBox z x y :: evs ++
       [EvCursor con;
        EvQuery cur (TileQuery z x y (min_lon b) (min_lat b) (max_lon b) (max_lat b));
        EvPrint (LogTiming z x y (length (tile_data_of row)))])
  /\ (tile_data_of row = [] <-> row = None \/ row = Some None \/ row = Some (Some []))
  /\ (forall data, row = Some (Some data) -> tile_data_of row = data)
  /\ tile_response [] <> empty_tile.
Proof.
  intros Hz Hb Hc Hcur Hq. unfold get_tile.
  replace (z <? 10) with false by (symmetry; apply Z.ltb_ge; lia).
  rewrite Hb, Hc. unfold query_tile. rewrite Hcur, Hq. simpl.
  split; [done|]. split; [|split].
  - destruct row as [[[|c data]|]|]; simpl; split; try done; eauto.
    + intros [?|[?|?]]; done.
  - intros data [= ->]. by destruct data.
  - done.
Qed.

(** X5.  The store is touched only for a tile that has a bounding box: if a
    request opens the database, makes a cursor or sends a query, then its
    zoom is at least 10 and [tile_to_bbox] returned.  From zoom 1024 on the
    request ends with [OverflowError] and touches nothing. *)
Theorem get_tile_store_untouched_without_bbox
    (db : store) (z x y : Z) (tl : option conn) :
  (Exists (fun ev => is_store_event ev = true) (get_tile db z x y tl).2 ->
     10 <= z /\ exists b, tile_to_bbox z x y = Ok b)
  /\ (1024 <= z -> get_tile db z x y tl = (Raise OverflowError, tl, [EvBBox z x y])).
Proof.
  split.
  - unfold get_tile. destruct (z <? 10) eqn:Hz.
    + simpl. intros H. by apply Exists_nil in H.
    + apply Z.ltb_ge in Hz. destruct (tile_to_bbox z x y) as [b|e]; [eauto|].
      simpl. intros H. apply Exists_cons in H as [H|H]; [done|].
      by apply Exists_nil in H.
  - intros Hz. unfold get_tile.
    replace (z <? 10) with false by (symmetry; apply Z.ltb_ge; lia).
    unfold tile_to_bbox, pow2.
    replace (1024 <=? z) with true by (symmetry; apply Z.leb_le; lia). done.
Qed.

End TileThreadProperties.

(** ** The tile grid *)
Module GridFacts.
Import PyFloat Tiles TileFormulas TileMathFacts Binary64Facts Binary64Values ExactFacts.





(** The western edge of column 0 and the eastern edge of the last column. *)
Lemma lon_first z : 0 <= z <= 47 -> lon z 0 = nearest (-180) 0.
Proof.
  intros Hz. rewrite lon_closed_form by lia.
  replace (45 * (2 * 0 - 2 ^ z)) with ((-45) * 2 ^ z) by lia.
  rewrite (nearest_scaled (-45) z (2 - z)) by (simpl; lia).
  replace (2 - z + z) with 2 by lia. vm_compute. reflexivity.
Qed.

Lemma lon_last z : 0 <= z <= 47 -> lon z (2 ^ z) = nearest 180 0.
Proof.
  intros Hz. assert (0 < 2 ^ z) by (apply Z.pow_pos_nonneg; lia).
  rewrite lon_closed_form by lia.
  replace (45 * (2 * 2 ^ z - 2 ^ z)) with (45 * 2 ^ z) by lia.
  rewrite (nearest_scaled 45 z (2 - z)) by (simpl; lia).
  replace (2 - z + z) with 2 by lia. vm_compute. reflexivity.
Qed.

Lemma pow2_bound z k : 0 <= z <= k -> 0 < 2 ^ z <= 2 ^ k.
Proof.
  intros Hz. split; [apply Z.pow_pos_nonneg; lia|].
  apply Z.pow_le_mono_r; lia.
Qed.


(** The argument of [sinh] for a row. *)
Definition lat_arg (z row : Z) : float :=
  mul pi (sub one (SFdiv prec emax (nearest (2 * row) 0) (nearest 1 z))).

Lemma lat_arg_eq `{Libm} z row : lat z row = degrees (math_atan (math_sinh (lat_arg z row))).
Proof. reflexivity. Qed.

Lemma row_ratio z row :
  0 <= z <= 50 -> 0 <= row <= 2 ^ z ->
  SFdiv prec emax (nearest (2 * row) 0) (nearest 1 z) = nearest (2 * row) (- z).
Proof.
  intros Hz Hr. pose proof (pow2_bound z 50 Hz) as Hp.
  assert (H50 : 2 ^ 50 = 1125899906842624) by reflexivity.
  assert (H53 : 2 ^ 53 = 9007199254740992) by reflexivity.
  apply div_pow2_nearest; lia.
Qed.

Lemma lat_arg_first z : 0 <= z <= 50 -> lat_arg z 0 = pi.
Proof.
  intros Hz. pose proof (pow2_bound z 50 Hz) as Hp.
  unfold lat_arg. rewrite row_ratio by lia.
  change (2 * 0) with 0. change (nearest 0 (- z)) with (S754_zero false).
  vm_compute. reflexivity.
Qed.

Lemma lat_arg_last z : 0 <= z <= 50 -> lat_arg z (2 ^ z) = SFopp pi.
Proof.
  intros Hz. pose proof (pow2_bound z 50 Hz) as Hp.
  unfold lat_arg. rewrite row_ratio by lia.
  rewrite (nearest_scaled 2 z (- z)) by (simpl; lia).
  replace (- z + z) with 0 by lia. vm_compute. reflexivity.
Qed.

(** A row of zoom [z] and the row [2 * row] of zoom [z + 1] start at the
    same latitude, a column and the column [2 * col] at the same
    longitude. *)
Lemma lat_arg_refine z row :
  0 <= z <= 49 -> 0 <= row <= 2 ^ z -> lat_arg (z + 1) (2 * row) = lat_arg z row.
Proof.
  intros Hz Hr. pose proof (pow2_bound z 49 Hz) as Hp.
  assert (H49 : 2 ^ 49 = 562949953421312) by reflexivity.
  assert (H53 : 2 ^ 53 = 9007199254740992) by reflexivity.
  assert (Hs : 2 ^ (z + 1) = 2 * 2 ^ z) by (rewrite Z.pow_add_r by lia; change (2 ^ 1) with 2; lia).
  unfold lat_arg. rewrite !row_ratio by lia.
  replace (2 * (2 * row)) with (2 * row * 2 ^ 1) by lia.
  rewrite (nearest_scaled (2 * row) 1 (- (z + 1))) by lia.
  by replace (- (z + 1) + 1) with (- z) by lia.
Qed.

Lemma lon_refine z col :
  0 <= z <= 46 -> 0 <= col <= 2 ^ z -> lon (z + 1) (2 * col) = lon z col.
Proof.
  intros Hz Hc. pose proof (pow2_bound z 46 Hz) as Hp.
  assert (H46 : 2 ^ 46 = 70368744177664) by reflexivity.
  assert (H53 : 2 ^ 53 = 9007199254740992) by reflexivity.
  assert (Hs : 2 ^ (z + 1) = 2 * 2 ^ z) by (rewrite Z.pow_add_r by lia; change (2 ^ 1) with 2; lia).
  rewrite !lon_closed_form by lia. rewrite Hs.
  replace (45 * (2 * (2 * col) - 2 * 2 ^ z)) with (45 * (2 * col - 2 ^ z) * 2 ^ 1) by lia.
  rewrite (nearest_scaled (45 * (2 * col - 2 ^ z)) 1 (2 - (z + 1))) by lia.
  by replace (2 - (z + 1) + 1) with (2 - z) by lia.
Qed.



End GridFacts.

Section GridProperties.
Import PyFloat Tiles TileFormulas TileMathFacts Binary64Facts Binary64Values ExactFacts GridFacts.
Context {libm : Libm}.


(** X7.  The grid of every zoom covers the world tile.  Up to zoom 47, in every
    row the first column starts at longitude [-180.0] and the last column
    ends at [180.0]; in every column the first row ends at the northern
    latitude of the tile 0/0/0 and the last row starts at its southern
    latitude: the same binary64 numbers, whatever the C library. *)
Theorem grid_covers_world_tile (z x y : Z) :
  0 <= z <= 47 -> 0 <= x < 2 ^ z -> 0 <= y < 2 ^ z ->
  exists west east north south world : bbox,
    tile_to_bbox z 0 y = Ok west
    /\ tile_to_bbox z (2 ^ z - 1) y = Ok east
    /\ tile_to_bbox z x 0 = Ok north
    /\ tile_to_bbox z x (2 ^ z - 1) = Ok south
    /\ tile_to_bbox 0 0 0 = Ok world
    /\ min_lon west = nearest (-180) 0 /\ min_lon world = nearest (-180) 0
    /\ max_lon east = nearest 180 0 /\ max_lon world = nearest 180 0
    /\ max_lat north = max_lat world
    /\ min_lat south = min_lat world.
Proof.
  intros Hz Hx Hy.
  do 5 eexists.
  split; [apply tile_to_bbox_returns; lia|].
  split; [apply tile_to_bbox_returns; lia|].
  split; [apply tile_to_bbox_returns; lia|].
  split; [apply tile_to_bbox_returns; lia|].
  split; [apply tile_to_bbox_world|].
  unfold min_lon, max_lon, min_lat, max_lat. cbn [fst snd].
  split; [by apply lon_first|]. split; [done|].
  split; [replace (2 ^ z - 1 + 1) with (2 ^ z) by lia; by apply lon_last|].
  split; [done|].
  split.
  - rewrite lat_arg_eq, lat_arg_first by lia. done.
  - replace (2 ^ z - 1 + 1) with (2 ^ z) by lia.
    rewrite lat_arg_eq, lat_arg_last by lia. done.
Qed.

(** X8.  The four children of a tile fill it.  Up to zoom 46, the tiles
    [(z+1, 2x, 2y)], [(z+1, 2x+1, 2y)], [(z+1, 2x, 2y+1)] and
    [(z+1, 2x+1, 2y+1)] have as their outer edges the edges of the tile
    [(z, x, y)] and meet at one middle longitude and one middle latitude:
    the same binary64 numbers, whatever the C library. *)
Theorem children_fill_parent_tile (z x y : Z) (b : bbox) :
  0 <= z <= 46 -> 0 <= x < 2 ^ z -> 0 <= y < 2 ^ z ->
  tile_to_bbox z x y = Ok b ->
  exists mid_lon mid_lat : float,
    tile_to_bbox (z + 1) (2 * x) (2 * y)
      = Ok (min_lon b, mid_lat, mid_lon, max_lat b)
    /\ tile_to_bbox (z + 1) (2 * x + 1) (2 * y)
      = Ok (mid_lon, mid_lat, max_lon b, max_lat b)
    /\ tile_to_bbox (z + 1) (2 * x) (2 * y + 1)
      = Ok (min_lon b, min_lat b, mid_lon, mid_lat)
    /\ tile_to_bbox (z + 1) (2 * x + 1) (2 * y + 1)
      = Ok (mid_lon, min_lat b, max_lon b, mid_lat).
Proof.
  intros Hz Hx Hy Hb. apply tile_to_bbox_inv in Hb as ->.
  unfold min_lon, max_lon, min_lat, max_lat. cbn [fst snd].
  assert (Hs : 2 ^ (z + 1) = 2 * 2 ^ z)
    by (rewrite Z.pow_add_r by lia; change (2 ^ 1) with 2; lia).
  exists (lon (z + 1) (2 * x + 1)), (lat (z + 1) (2 * y + 1)).
  rewrite <- (lon_refine z x), <- (lon_refine z (x + 1)) by lia.
  rewrite (lat_arg_eq z y), (lat_arg_eq z (y + 1)).
  rewrite <- (lat_arg_refine z y), <- (lat_arg_refine z (y + 1)) by lia.
  rewrite <- !lat_arg_eq.
  replace (2 * (x + 1)) with (2 * x + 1 + 1) by lia.
  replace (2 * (y + 1)) with (2 * y + 1 + 1) by lia.
  split; [apply tile_to_bbox_returns; lia|].
  split; [apply tile_to_bbox_returns; lia|].
  split; [apply tile_to_bbox_returns; lia|].
  apply tile_to_bbox_returns; lia.
Qed.


End GridProperties.

(** ** The register over its whole life *)
Module RegisterLifeFacts.
Import Register RegisterFacts.

Lemma last_accepted_snoc reqs data :
  last_accepted (reqs ++ [data]) =
    match accepted data with
    | Some v => Some v
    | None => last_accepted reqs
    end.
Proof.
  unfold last_accepted. rewrite omap_app. simpl.
  destruct (accepted data) as [v|]; simpl.
  - by rewrite last_snoc.
  - by rewrite app_nil_r.
Qed.

Lemma run_updates_state (reqs : list json) (cs : gmap string json) :
  run_updates reqs cs =
    match last_accepted reqs with
    | Some v => <["bounds" := v]> cs
    | None => cs
    end.
Proof.
  induction reqs as [|data reqs IH] using rev_ind; [done|].
  rewrite run_updates_snoc, update_view_state, last_accepted_snoc, IH.
  destruct (accepted data) as [v|]; [|done].
  destruct (last_accepted reqs) as [v'|]; [|done].
  by rewrite insert_insert_eq.
Qed.

(** The response of [update_view] does not depend on [current_stats]. *)
Lemma update_view_response_state (data : json) (cs cs' : gmap string json) :
  (update_view data cs).1 = (update_view data cs').1.
Proof.
  unfold update_view.
  destruct (py_get data "bounds") as [bounds|]; [|done].
  destruct (py_get data "zoom") as [zoom|]; [|done].
  destruct (negb (truthy bounds)); [done|].
  by destruct (py_setitem bounds "zoom" zoom).
Qed.

End RegisterLifeFacts.

Section RegisterLifeProperties.
Import Register RegisterFacts RegisterLifeFacts.

(** X10.  Only the ['bounds'] entry of [current_stats] ever changes.  After any
    history of [/update-view] requests, accepted, rejected or ended by an
    exception, [current_stats] is its initial value with ['bounds']
    replaced by the value of the last accepted request: ['count'] and
    ['area'] are still 0 and no key has been added. *)
Theorem current_stats_only_bounds_change (reqs : list json) :
  run_updates reqs current_stats_init =
    <["bounds" := default JNull (last_accepted reqs)]> current_stats_init
  /\ run_updates reqs current_stats_init !! "count" = Some (JInt 0)
  /\ run_updates reqs current_stats_init !! "area" = Some (JInt 0)
  /\ (forall k, k <> "count" -> k <> "area" -> k <> "bounds" ->
        run_updates reqs current_stats_init !! k = None).
Proof.
  assert (H : run_updates reqs current_stats_init =
    <["bounds" := default JNull (last_accepted reqs)]> current_stats_init).
  { rewrite run_updates_state. destruct (last_accepted reqs) as [v|]; [done|].
    simpl. symmetry. by apply insert_id. }
  split; [done|]. rewrite H. split; [done|]. split; [done|].
  intros k Hc Ha Hb. rewrite lookup_insert_ne by done.
  unfold current_stats_init.
  rewrite lookup_insert_ne by done. rewrite lookup_insert_ne by done.
  by rewrite lookup_singleton_ne.
Qed.

(** X11.  The exceptions of [update_view].  The handler raises [AttributeError]
    exactly when the request body is not a JSON object, and [TypeError]
    exactly when the body is an object whose ['bounds'] is truthy but not
    an object; it raises nothing else, and a request that ends with an
    exception leaves [current_stats] as it was. *)
Theorem update_view_exceptions (data : json) (cs : gmap string json) (e : exn) :
  ((update_view data cs).1 = Raise e <->
     (e = AttributeError /\ forall m, data <> JObj m)
     \/ (e = TypeError
         /\ exists m, data = JObj m
              /\ truthy (dict_get m "bounds") = true
              /\ forall b, dict_get m "bounds" <> JObj b))
  /\ ((update_view data cs).1 = Raise e -> (update_view data cs).2 = cs).
Proof.
  unfold update_view.
  destruct data as [| | | | | |m]; simpl;
    try (split; [|done]; split;
         [intros [= <-]; by left
         |intros [[-> _]|(_ & m & ? & _)]; done]).
  destruct (truthy (dict_get m "bounds")) eqn:Ht; simpl.
  - destruct (dict_get m "bounds") as [| | | | | |b] eqn:Hb; simpl;
      try (split; [|done]; split;
           [intros [= <-]; right; split; [done|]; exists m; by rewrite Hb, Ht
           |intros [[_ Hm]|[-> _]]; [by destruct (Hm m)|done]]).
    split; [|done]. split; [done|].
    intros [[_ Hm]|(_ & m' & [= <-] & _ & Hno)]; [by destruct (Hm m)|].
    by destruct (Hno b).
  - split; [|done]. split; [done|].
    intros [[_ Hm]|(_ & m' & [= <-] & Ht' & _)]; [by destruct (Hm m)|congruence].
Qed.

End RegisterLifeProperties.

(** ** Responses under concurrency *)
Module ConcurrentResponseFacts.
Import Register RegisterFacts RegisterLifeFacts Concurrent ConcurrentFacts.

(** Where a writer stands, compared with [update_view] run alone on its
    request. *)
Definition response_inv (w : writer) : Prop :=
  match w_pc w with
  | WStart => True
  | WSetZoom =>
      py_get (w_data w) "bounds" = Ok (w_bounds w)
      /\ py_get (w_data w) "zoom" = Ok (w_zoom w)
      /\ truthy (w_bounds w) = true
  | WPublish =>
      (update_view (w_data w) ∅).1 = Ok (jsonify ok_body 200)
  | WDone r => r = (update_view (w_data w) ∅).1
  end.

Lemma writer_step_response w w' pub :
  response_inv w -> writer_step w = Some (w', pub) -> response_inv w'.
Proof.
  destruct w as [data pc bounds zoom].
  unfold writer_step, response_inv. simpl. intros Hinv H.
  destruct pc.
  - destruct (py_get data "bounds") as [b|e] eqn:Hb;
      [|injection H as <- _; simpl; unfold update_view; by rewrite Hb].
    destruct (py_get data "zoom") as [zm|e] eqn:Hz;
      [|injection H as <- _; simpl; unfold update_view; by rewrite Hb, Hz].
    destruct (truthy b) eqn:Ht; simpl in H; injection H as <- _; simpl.
    + done.
    + unfold update_view. by rewrite Hb, Hz, Ht.
  - destruct Hinv as (Hb & Hz & Ht).
    destruct (py_setitem bounds "zoom" zoom) as [b'|e] eqn:Hs;
      injection H as <- _; simpl; unfold update_view; by rewrite Hb, Hz, Ht, Hs.
  - injection H as <- _. simpl. done.
  - done.
Qed.

Lemma response_inv_reachable v0 reqs k c :
  rtc (step v0) (init reqs k) c -> Forall response_inv (c_writers c).
Proof.
  revert c. apply rtc_ind_r.
  - simpl. apply Forall_fmap. by apply Forall_true.
  - intros c c' _ Hstep IH.
    destruct Hstep as [c i w w' pub Hi Hws | c j Hj | c j s Hj]; simpl; [|done..].
    apply Forall_insert; [done|].
    eapply writer_step_response; [|done].
    by eapply (proj1 (Forall_lookup _ _) IH).
Qed.

End ConcurrentResponseFacts.

Section ConcurrentResponseProperties.
Import Register RegisterFacts RegisterLifeFacts Concurrent ConcurrentFacts ConcurrentResponseFacts.

(** X12.  Concurrency changes no response.  However the statements of
    concurrent [/update-view] and [/get-bounds] requests interleave, each
    [/update-view] that has finished has answered (or raised) what
    [update_view] answers for its request body when it runs alone, in any
    state of [current_stats]. *)
Theorem concurrent_update_view_responses
    (v0 : json) (reqs : list json) (k : nat) (c : config)
    (i : nat) (w : writer) (r : result response) :
  rtc (step v0) (init reqs k) c ->
  c_writers c !! i = Some w -> w_pc w = WDone r ->
  exists data, reqs !! i = Some data
    /\ forall cs, r = (update_view data cs).1.
Proof.
  intros Hreach Hi Hpc.
  pose proof (inv_data _ _ _ (inv_reachable _ _ _ _ Hreach)) as Hd.
  pose proof (proj1 (Forall_lookup _ _) (response_inv_reachable _ _ _ _ Hreach) i w Hi) as Hw.
  unfold response_inv in Hw. rewrite Hpc in Hw.
  exists (w_data w). split.
  - rewrite <- Hd, list_lookup_fmap, Hi. done.
  - intros cs. rewrite Hw. apply update_view_response_state.
Qed.

End ConcurrentResponseProperties.

(** ** From the map to the dashboard *)
Module PollingFacts.
Import Register RegisterFacts Polling Dashboard.

Lemma received_get_bounds cs :
  received (get_bounds cs)
    = Some (Reply true (Ok (JObj {[ "bounds" := dict_get cs "bounds" ]}))).
Proof. reflexivity. Qed.

Lemma poll_get_bounds cs :
  get_view_bounds (Ok (Reply true (Ok (JObj {[ "bounds" := dict_get cs "bounds" ]}))))
    = dict_get cs "bounds".
Proof.
  unfold get_view_bounds, py_get. cbn [reply_ok reply_json].
  unfold dict_get at 1. by rewrite lookup_singleton_eq.
Qed.

(** [round] raises nothing but [TypeError]. *)
Lemma py_round_raises v n e : py_round v n = Raise e -> e = TypeError.
Proof. destruct v; simpl; congruence. Qed.

(** A dictionary whose ['zoom'] is [None] has no key. *)
Lemma make_bounds_key_zoom_none (m : gmap string json) :
  m !! "zoom" = Some JNull -> make_bounds_key (JObj m) = Raise TypeError.
Proof.
  intros Hz. unfold make_bounds_key.
  assert (Hne : m ≠ ∅) by (intros ->; by rewrite lookup_empty in Hz).
  replace (negb (truthy (JObj m))) with false
    by (symmetry; apply negb_false_iff; by apply truthy_obj).
  destruct (py_round (dict_get_default m "north" (JInt 0)) 4) as [n|e] eqn:Hn;
    [|by rewrite (py_round_raises _ _ _ Hn)].
  destruct (py_round (dict_get_default m "south" (JInt 0)) 4) as [s|e] eqn:Hs;
    [|by rewrite (py_round_raises _ _ _ Hs)].
  destruct (py_round (dict_get_default m "east" (JInt 0)) 4) as [ea|e] eqn:He;
    [|by rewrite (py_round_raises _ _ _ He)].
  destruct (py_round (dict_get_default m "west" (JInt 0)) 4) as [w|e] eqn:Hw;
    [|by rewrite (py_round_raises _ _ _ Hw)].
  cbn [mbind result_bind]. unfold dict_get_default. by rewrite Hz.
Qed.

End PollingFacts.

Section PollingProperties.
Import Register RegisterFacts RegisterLifeFacts Polling Dashboard PollingFacts.

(** X13.  [get_view_bounds] tells no failure from an unset view.  It returns a
    value other than [None] only when the request succeeded, the reply
    was [ok], its body was a JSON object and that object had the value
    under ['bounds']; an exception of the request, an error status, a body
    that is not JSON, a JSON document that is not an object and a missing
    key all give [None]. *)
Theorem get_view_bounds_value (http_get : result reply) (v : json) :
  v <> JNull ->
  (get_view_bounds http_get = v
     <-> exists m, http_get = Ok (Reply true (Ok (JObj m))) /\ m !! "bounds" = Some v).
Proof.
  intros Hv. unfold get_view_bounds. split.
  - destruct http_get as [[[] [doc|e]]|e]; try (intros <-; done).
    destruct doc as [| | | | | |m]; simpl; try (intros <-; done).
    unfold dict_get. destruct (m !! "bounds") as [v'|] eqn:Hm; simpl.
    + intros <-. eauto.
    + intros <-. done.
  - intros (m & -> & Hm). simpl. unfold dict_get. by rewrite Hm.
Qed.

(** X14.  What the map posts is what the dashboard polls.  After any history of
    [/update-view] requests, [get_view_bounds] on the server's answer to
    [/get-bounds] returns the value stored by the last accepted request,
    the submitted bounds with the submitted zoom under ['zoom'], and
    [None] when no request was accepted. *)
Theorem dashboard_polls_last_accepted_view (reqs : list json) :
  exists r : reply,
    received (get_bounds (run_updates reqs current_stats_init)) = Some r
    /\ get_view_bounds (Ok r) = default JNull (last_accepted reqs).
Proof.
  eexists. split; [apply received_get_bounds|].
  rewrite poll_get_bounds, run_updates_bounds. done.
Qed.

(** X15.  A view posted without a zoom stops the dashboard.  [update_view]
    accepts a body whose ['bounds'] is a non-empty object and whose
    ['zoom'] is absent or null, and stores the bounds with ['zoom'] set to
    [None]; for the bounds polled afterwards [make_bounds_key] raises
    [TypeError], and so does every rerun of [main], in any session. *)
Theorem view_without_zoom_stops_dashboard
    (m b : gmap string json) (cs : gmap string json)
    (db : stats_store) (s : session) :
  m !! "bounds" = Some (JObj b) -> b <> ∅ -> dict_get m "zoom" = JNull ->
  (update_view (JObj m) cs).1 = Ok (jsonify ok_body 200)
  /\ exists r : reply,
       received (get_bounds (update_view (JObj m) cs).2) = Some r
       /\ get_view_bounds (Ok r) = JObj (<["zoom" := JNull]> b)
       /\ make_bounds_key (get_view_bounds (Ok r)) = Raise TypeError
       /\ main db (get_view_bounds (Ok r)) s = Raise TypeError.
Proof.
  intros Hb Hne Hz.
  assert (Hacc : accepted (JObj m) = Some (JObj (<["zoom" := JNull]> b))).
  { unfold accepted, dict_get at 1. rewrite Hb. simpl.
    rewrite bool_decide_eq_false_2 by done. by rewrite Hz. }
  split; [apply update_view_response; by rewrite Hacc|].
  eexists. split; [apply received_get_bounds|].
  rewrite poll_get_bounds, update_view_state, Hacc.
  unfold dict_get. rewrite lookup_insert_eq. simpl.
  assert (Hk : make_bounds_key (JObj (<["zoom" := JNull]> b)) = Raise TypeError)
    by (apply make_bounds_key_zoom_none; by rewrite lookup_insert_eq).
  split; [done|]. split; [done|]. unfold main. by rewrite Hk.
Qed.

End PollingProperties.

(** ** The statistics of the dashboard *)
Module StatsFacts.
Import Dashboard DashboardFacts Session.

(** The query [query_stats] builds from a dictionary of bounds. *)
Definition stats_query_of (m : gmap string json) : stats_query :=
  StatsQuery (dict_get m "east") (dict_get m "west")
             (dict_get m "north") (dict_get m "south").

Lemma make_bounds_key_shape b k :
  make_bounds_key b = Ok k ->
  (truthy b = false /\ k = None)
  \/ (truthy b = true /\ exists m, b = JObj m).
Proof.
  unfold make_bounds_key. destruct (truthy b) eqn:Ht; simpl.
  - intros H. right. split; [done|]. destruct b; try done. eauto.
  - intros [= <-]. by left.
Qed.

Lemma query_stats_obj db m :
  m <> ∅ ->
  query_stats db (JObj m) =
    match stats_connect db with
    | Raise e => Ok (no_stats, [EvConnect; EvPrint e])
    | Ok _ =>
      match stats_load_spatial db with
      | Raise e => Ok (no_stats, [EvConnect; EvLoadSpatial; EvPrint e])
      | Ok _ =>
        match stats_fetchone db (stats_query_of m) with
        | Raise e =>
            Ok (no_stats, [EvConnect; EvLoadSpatial; EvQuery (stats_query_of m); EvPrint e])
        | Ok None => Ok (no_stats, [EvConnect; EvLoadSpatial; EvQuery (stats_query_of m)])
        | Ok (Some (c, a)) =>
            Ok (Stats (or_zero c) (or_zero a),
                [EvConnect; EvLoadSpatial; EvQuery (stats_query_of m)])
        end
      end
    end.
Proof.
  intros Hne. unfold query_stats.
  replace (negb (truthy (JObj m))) with false
    by (symmetry; apply negb_false_iff; simpl; apply negb_true_iff;
        by apply bool_decide_eq_false).
  reflexivity.
Qed.

(** With a key at hand, [query_stats] returns. *)
Lemma query_stats_returns db b k :
  make_bounds_key b = Ok k -> exists st evs, query_stats db b = Ok (st, evs).
Proof.
  intros Hk. destruct (make_bounds_key_shape _ _ Hk) as [[Ht _]|[Ht [m ->]]].
  - unfold query_stats. rewrite Ht. simpl. eauto.
  - rewrite query_stats_obj
      by (intros ->; simpl in Ht; by rewrite bool_decide_eq_true_2 in Ht).
    destruct (stats_connect db) as [?|?]; [|eauto].
    destruct (stats_load_spatial db) as [?|?]; [|eauto].
    destruct (stats_fetchone db _) as [[[cnt ar]|]|?]; eauto.
Qed.

Lemma queries_app evs evs' : queries (evs ++ evs') = (queries evs + queries evs')%nat.
Proof. unfold queries. by rewrite filter_app, length_app. Qed.

(** Two stored keys that compare equal count the same changes. *)
Lemma changes_equal_keys k k' polls :
  key_ne k k' = false -> changes k polls = changes k' polls.
Proof.
  intros Hkk'. induction polls as [|b polls IH]; [done|]. simpl.
  destruct (make_bounds_key b) as [k1|e]; [|done].
  assert (Hb : key_ne k1 k = key_ne k1 k').
  { destruct (key_ne k1 k) eqn:H1, (key_ne k1 k') eqn:H2; try done.
    - rewrite key_ne_sym in Hkk'.
      by rewrite (key_ne_trans _ _ _ H2 Hkk') in H1.
    - by rewrite (key_ne_trans _ _ _ H1 Hkk') in H2. }
  by rewrite Hb.
Qed.

Definition num_is_nan (a : num) : bool :=
  match a with
  | NFloat S754_nan => true
  | _ => false
  end.

Definition key_has_nan (k : key) : bool :=
  let '(n, s, e, w, z) := k in
  num_is_nan n || num_is_nan s || num_is_nan e || num_is_nan w || num_is_nan z.

Lemma num_eq_refl a : num_eq a a = negb (num_is_nan a).
Proof.
  unfold num_eq. destruct a as [n|[| | |]]; simpl; try done;
    by rewrite bool_decide_eq_true_2.
Qed.

Lemma num_eq_nan a b : num_is_nan a = true -> num_eq a b = false.
Proof. by destruct a as [n|[| | |]]. Qed.

Lemma key_eq_nan k k' : key_has_nan k = true -> key_eq k k' = false.
Proof.
  destruct k as [[[[n s] e] w] z], k' as [[[[n' s'] e'] w'] z']. simpl.
  rewrite !orb_true_iff. intros [[[[H|H]|H]|H]|H];
    rewrite (num_eq_nan _ _ H); by rewrite ?andb_false_r.
Qed.

Lemma key_eq_refl k : key_eq k k = negb (key_has_nan k).
Proof.
  destruct k as [[[[n s] e] w] z]. simpl. rewrite !num_eq_refl.
  by rewrite !negb_orb.
Qed.

End StatsFacts.

Section StatsProperties.
Import Dashboard DashboardFacts Session StatsFacts.

(** X16.  A rerun fails only on the key.  [main] raises exactly when
    [make_bounds_key] raises for the polled bounds, with the same
    exception, before anything is written to the session or sent to the
    dataset; a failure of the dataset never ends a rerun.  The exception is
    [AttributeError] for bounds that are not an object and [TypeError] for
    a field that is not a number. *)
Theorem main_raises_only_on_key
    (db : stats_store) (bounds : json) (s : session) (e : exn) :
  (main db bounds s = Raise e <-> make_bounds_key bounds = Raise e)
  /\ (make_bounds_key bounds = Raise e ->
        (e = AttributeError /\ forall m, bounds <> JObj m)
        \/ (e = TypeError /\ exists m, bounds = JObj m)).
Proof.
  split.
  - unfold main. destruct (make_bounds_key bounds) as [k|e'] eqn:Hk;
      cbn [mbind result_bind]; [|split; intros [= ->]; done].
    destruct (key_ne k (last_bounds s)); [|done].
    destruct (query_stats_returns db _ _ Hk) as (st & evs & ->).
    done.
  - unfold make_bounds_key. destruct (negb (truthy bounds)); [done|].
    destruct bounds as [| | | | | |m]; try (intros [= <-]; left; done).
    intros H. right. split; [|eauto].
    destruct (py_round (dict_get_default m "north" (JInt 0)) 4) as [n|e1] eqn:H1;
      cbn [mbind result_bind] in H;
      [|injection H as <-; by eapply PollingFacts.py_round_raises].
    destruct (py_round (dict_get_default m "south" (JInt 0)) 4) as [s'|e1] eqn:H2;
      cbn [mbind result_bind] in H;
      [|injection H as <-; by eapply PollingFacts.py_round_raises].
    destruct (py_round (dict_get_default m "east" (JInt 0)) 4) as [ea|e1] eqn:H3;
      cbn [mbind result_bind] in H;
      [|injection H as <-; by eapply PollingFacts.py_round_raises].
    destruct (py_round (dict_get_default m "west" (JInt 0)) 4) as [w|e1] eqn:H4;
      cbn [mbind result_bind] in H;
      [|injection H as <-; by eapply PollingFacts.py_round_raises].
    destruct (py_round (dict_get_default m "zoom" (JInt 0)) 1) as [zm|e1] eqn:H5;
      cbn [mbind result_bind] in H;
      [done|injection H as <-; by eapply PollingFacts.py_round_raises].
Qed.

(** X17.  A failing dataset gives zeros.  For bounds that are a non-empty
    object, if opening the database, loading the extension or running the
    query raises [e], [query_stats] returns count 0 and area 0, the
    exception is printed last, and nothing is raised; at most one query
    was sent. *)
Theorem query_stats_store_failure_gives_zeros
    (db : stats_store) (m : gmap string json) (e : exn) :
  m <> ∅ ->
  (stats_connect db = Raise e
   \/ (stats_connect db = Ok tt /\ stats_load_spatial db = Raise e)
   \/ (stats_connect db = Ok tt /\ stats_load_spatial db = Ok tt
       /\ stats_fetchone db (stats_query_of m) = Raise e)) ->
  exists evs,
    query_stats db (JObj m) = Ok (no_stats, evs ++ [EvPrint e])
    /\ (queries (evs ++ [EvPrint e]) <= 1)%nat.
Proof.
  intros Hne Hfail. rewrite query_stats_obj by done.
  destruct Hfail as [Hc|[(Hc & Hl)|(Hc & Hl & Hq)]]; rewrite Hc; [|rewrite Hl..];
    [| |rewrite Hq].
  - exists [EvConnect]. split; [done|]. cbv. lia.
  - exists [EvConnect; EvLoadSpatial]. split; [done|]. cbv. lia.
  - exists [EvConnect; EvLoadSpatial; EvQuery (stats_query_of m)].
    split; [done|]. cbv. lia.
Qed.

(** X18.  The statistics are never [None].  Whatever [query_stats] returns,
    its count and its area are each a truthy value of the row or the
    integer 0; a row with NULL, 0 or 0.0 in a column gives the integer 0
    there, no row gives zeros, and falsy bounds give zeros without the
    database being opened. *)
Theorem query_stats_values
    (db : stats_store) (bounds : json) (st : stats) (evs : list event) :
  query_stats db bounds = Ok (st, evs) ->
  (truthy (count st) = true \/ count st = JInt 0)
  /\ (truthy (area st) = true \/ area st = JInt 0)
  /\ (truthy bounds = false -> st = no_stats /\ evs = [])
  /\ (forall m, bounds = JObj m -> m <> ∅ ->
      stats_connect db = Ok tt -> stats_load_spatial db = Ok tt ->
      match stats_fetchone db (stats_query_of m) with
      | Ok (Some (c, a)) => st = Stats (or_zero c) (or_zero a)
      | _ => st = no_stats
      end).
Proof.
  intros H.
  assert (Hor : forall v, truthy (or_zero v) = true \/ or_zero v = JInt 0).
  { intros v. unfold or_zero. destruct (truthy v) eqn:Hv; eauto. }
  split; [|split; [|split]].
  - unfold query_stats in H. destruct (negb (truthy bounds)); [injection H as <- _; by right|].
    destruct (py_get bounds "north"); [|done].
    destruct (py_get bounds "south"); [|done].
    destruct (py_get bounds "east"); [|done].
    destruct (py_get bounds "west"); [|done].
    cbn [mbind result_bind] in H.
    destruct (stats_connect db); [|injection H as <- _; by right].
    destruct (stats_load_spatial db); [|injection H as <- _; by right].
    destruct (stats_fetchone db _) as [[[cnt ar]|]|?]; injection H as <- _;
      [apply Hor|by right..].
  - unfold query_stats in H. destruct (negb (truthy bounds)); [injection H as <- _; by right|].
    destruct (py_get bounds "north"); [|done].
    destruct (py_get bounds "south"); [|done].
    destruct (py_get bounds "east"); [|done].
    destruct (py_get bounds "west"); [|done].
    cbn [mbind result_bind] in H.
    destruct (stats_connect db); [|injection H as <- _; by right].
    destruct (stats_load_spatial db); [|injection H as <- _; by right].
    destruct (stats_fetchone db _) as [[[cnt ar]|]|?]; injection H as <- _;
      [apply Hor|by right..].
  - intros Ht. unfold query_stats in H. rewrite Ht in H. simpl in H.
    by injection H as <- <-.
  - intros m -> Hne Hc Hl. rewrite query_stats_obj, Hc, Hl in H by done.
    destruct (stats_fetchone db _) as [[[cnt ar]|]|?]; by injection H as <- _.
Qed.

(** X19.  One query at most for each change of the key.  Over any number of
    reruns in one session, the queries sent to the dataset are at most as
    many as the polls whose rounded key differs from the key of the poll
    before them; and while the key does not change nothing is done at all:
    the session is as it was and the database is not opened. *)
Theorem reruns_query_once_per_change
    (db : stats_store) (polls : list json) (s : session) :
  (queries (reruns db polls s).2 <= changes (last_bounds s) polls)%nat
  /\ (changes (last_bounds s) polls = 0%nat -> reruns db polls s = (s, [])).
Proof.
  revert s. induction polls as [|b polls IH]; intros s; [split; [cbv; lia|done]|].
  simpl. unfold main.
  destruct (make_bounds_key b) as [k|e] eqn:Hk; cbn [mbind result_bind];
    [|apply IH].
  destruct (key_ne k (last_bounds s)) eqn:Hne.
  - destruct (query_stats_returns db _ _ Hk) as (st & evs & Hq). rewrite Hq.
    cbn [mbind result_bind mret result_ret].
    destruct (IH (Session k st)) as [IH1 _]. simpl in IH1.
    destruct (reruns db polls (Session k st)) as [s'' evs'] eqn:Hr.
    simpl in *. split; [|lia].
    rewrite queries_app. pose proof (query_stats_queries _ _ _ _ Hq). lia.
  - cbn [mret result_ret].
    rewrite (changes_equal_keys k (last_bounds s)) by done.
    destruct (IH s) as [IH1 IH2].
    destruct (reruns db polls s) as [s'' evs'] eqn:Hr. simpl in *.
    split; [done|]. intros H0. by rewrite (IH2 H0).
Qed.

(** X20.  NaN defeats the memoisation.  A key equals itself exactly when none
    of its five numbers is NaN.  For bounds with a NaN coordinate or zoom
    ([round] returns NaN as it is), every rerun calls [query_stats],
    whatever the session remembers; for bounds without one, a rerun right
    after they were stored does nothing. *)
Theorem nan_key_is_never_remembered (k : key) :
  key_ne (Some k) (Some k) = key_has_nan k
  /\ (forall db bounds s,
        make_bounds_key bounds = Ok (Some k) -> key_has_nan k = true ->
        main db bounds s =
          ('(st, evs) ← query_stats db bounds; Ok (Session (Some k) st, evs)))
  /\ (forall db bounds st,
        make_bounds_key bounds = Ok (Some k) -> key_has_nan k = false ->
        main db bounds (Session (Some k) st) = Ok (Session (Some k) st, []))
  /\ (forall (m : gmap string json) field,
        field ∈ ["north"; "south"; "east"; "west"; "zoom"] ->
        m !! field = Some (JFloat S754_nan) ->
        make_bounds_key (JObj m) = Ok (Some k) -> key_has_nan k = true).
Proof.
  assert (Hrefl : key_ne (Some k) (Some k) = key_has_nan k)
    by (simpl; rewrite key_eq_refl; apply negb_involutive).
  split; [done|]. split; [|split].
  - intros db bounds s Hk Hnan. rewrite (main_unfold _ _ _ _ Hk).
    replace (key_ne (Some k) (last_bounds s)) with true; [done|].
    destruct (last_bounds s) as [k'|]; simpl; [|done].
    by rewrite key_eq_nan.
  - intros db bounds st Hk Hnan. rewrite (main_unfold _ _ _ _ Hk). simpl.
    by rewrite key_eq_refl, Hnan.
  - intros m field Hf Hm. unfold make_bounds_key.
    destruct (negb (truthy (JObj m))); [done|].
    destruct (py_round (dict_get_default m "north" (JInt 0)) 4) as [n|] eqn:H1; [|done].
    destruct (py_round (dict_get_default m "south" (JInt 0)) 4) as [s|] eqn:H2; [|done].
    destruct (py_round (dict_get_default m "east" (JInt 0)) 4) as [e|] eqn:H3; [|done].
    destruct (py_round (dict_get_default m "west" (JInt 0)) 4) as [w|] eqn:H4; [|done].
    destruct (py_round (dict_get_default m "zoom" (JInt 0)) 1) as [z|] eqn:H5; [|done].
    cbn [mbind result_bind mret result_ret]. intros [= <-].
    unfold dict_get_default in *. simpl.
    repeat (apply elem_of_cons in Hf as [->|Hf];
            [rewrite Hm in *; simpl in *;
             repeat match goal with H : Ok _ = Ok _ |- _ => injection H as <- end;
             simpl; by rewrite ?orb_true_r|]).
    by apply elem_of_nil in Hf.
Qed.

End StatsProperties.

(** ** From a posted view to the statistics query *)
Module ViewportFacts.
Import Register RegisterFacts Polling Dashboard DashboardFacts PollingFacts StatsFacts.

(** Setting ['zoom'] leaves the four coordinates alone. *)
Lemma stats_query_of_zoom (b : gmap string json) (zoom : json) :
  stats_query_of (<["zoom" := zoom]> b) = stats_query_of b.
Proof.
  unfold stats_query_of, dict_get. by rewrite !lookup_insert_ne by done.
Qed.

Lemma poll_bounds (v : json) :
  get_view_bounds (Ok (Reply true (Ok (JObj {[ "bounds" := v ]})))) = v.
Proof.
  unfold get_view_bounds, py_get. cbn [reply_ok reply_json].
  unfold dict_get. by rewrite lookup_singleton_eq.
Qed.

Lemma polled_after_update (m b cs : gmap string json) :
  m !! "bounds" = Some (JObj b) -> b <> ∅ ->
  received (get_bounds (update_view (JObj m) cs).2)
    = Some (Reply true (Ok (JObj {[ "bounds" :=
         JObj (<["zoom" := dict_get m "zoom"]> b) ]}))).
Proof.
  intros Hb Hne. rewrite received_get_bounds, update_view_state.
  unfold accepted, dict_get at 2. rewrite Hb. simpl.
  rewrite bool_decide_eq_false_2 by done.
  unfold dict_get at 1. by rewrite lookup_insert_eq.
Qed.

Ltac invert_elem H :=
  repeat (apply elem_of_cons in H as [H|H];
          [first [discriminate H | by injection H as ->]|]);
  by apply elem_of_nil in H.

End ViewportFacts.

Section ViewportProperties.
Import Register RegisterFacts Polling Dashboard DashboardFacts PollingFacts StatsFacts.
Import ViewportFacts.

(** X21.  The statistics are asked for the posted viewport.  After an
    [/update-view] with a non-empty object as ['bounds'], a rerun of [main]
    on the bounds it polls sends no query to the dataset but the aggregate
    query with the posted ['east'], ['west'], ['north'] and ['south']; and
    when the key differs from the remembered one and the database opens,
    it does send that query, once, and remembers the new key. *)
Theorem dashboard_queries_posted_viewport
    (m b cs : gmap string json) (db : stats_store) (r : reply)
    (s s' : session) (evs : list event) :
  m !! "bounds" = Some (JObj b) -> b <> ∅ ->
  received (get_bounds (update_view (JObj m) cs).2) = Some r ->
  main db (get_view_bounds (Ok r)) s = Ok (s', evs) ->
  (forall q, EvQuery q ∈ evs -> q = stats_query_of b)
  /\ (forall k, make_bounds_key (get_view_bounds (Ok r)) = Ok k ->
      key_ne k (last_bounds s) = true ->
      stats_connect db = Ok tt -> stats_load_spatial db = Ok tt ->
      EvQuery (stats_query_of b) ∈ evs /\ queries evs = 1%nat
      /\ last_bounds s' = k).
Proof.
  intros Hb Hne Hr Hmain.
  rewrite (polled_after_update m b cs Hb Hne) in Hr. injection Hr as <-.
  rewrite poll_bounds in *.
  set (v := <["zoom" := dict_get m "zoom"]> b) in *.
  assert (Hv : v <> ∅) by apply insert_non_empty.
  unfold main in Hmain.
  destruct (make_bounds_key (JObj v)) as [k|e] eqn:Hk; [|done].
  cbn [mbind result_bind] in Hmain.
  rewrite (query_stats_obj db v Hv) in Hmain.
  assert (Hq : stats_query_of v = stats_query_of b) by apply stats_query_of_zoom.
  rewrite Hq in Hmain.
  split.
  - intros q Hin.
    destruct (key_ne k (last_bounds s));
      [|injection Hmain as <- <-; by apply elem_of_nil in Hin].
    destruct (stats_connect db) as [?|?].
    2:{ injection Hmain as <- <-. invert_elem Hin. }
    destruct (stats_load_spatial db) as [?|?].
    2:{ injection Hmain as <- <-. invert_elem Hin. }
    destruct (stats_fetchone db (stats_query_of b)) as [[[cnt ar]|]|?];
      injection Hmain as <- <-; invert_elem Hin.
  - intros k' [= <-] Hne' Hc Hl. rewrite Hne', Hc, Hl in Hmain.
    destruct (stats_fetchone db (stats_query_of b)) as [[[cnt ar]|]|?];
      injection Hmain as <- <-;
      (split; [rewrite !elem_of_cons; auto|done]).
Qed.

End ViewportProperties.

(** ** Probing and starting the tile server *)
Module StartupFacts.
Import Startup.

Definition starts (evs : list event) : nat := length (filter is_start evs).

Definition is_close (ev : event) : bool :=
  match ev with
  | EvClose => true
  | _ => false
  end.

Definition closes (evs : list event) : nat := length (filter is_close evs).

Lemma starts_app evs evs' : starts (evs ++ evs') = (starts evs + starts evs')%nat.
Proof. unfold starts. by rewrite filter_app, length_app. Qed.

(** A probe starts no thread. *)
Lemma probe_starts net : starts (is_tile_server_running net).2 = 0%nat.
Proof.
  unfold is_tile_server_running, finally_close.
  destruct (new_socket net); [|done].
  destruct (settimeout net); [|by destruct (close net)].
  destruct (connect_ex net); by destruct (close net).
Qed.

(** One call, with the flag set and without. *)
Lemma ensure_started net net' start :
  (ensure_tile_server_running net net' start true).1.2 = true
  /\ starts (ensure_tile_server_running net net' start true).2 = 0%nat.
Proof.
  unfold ensure_tile_server_running.
  pose proof (probe_starts net) as Hp.
  by destruct (is_tile_server_running net) as [[[]|e] evs].
Qed.

Lemma ensure_not_started net net' start :
  (starts (ensure_tile_server_running net net' start false).2 <= 1)%nat
  /\ (starts (ensure_tile_server_running net net' start false).2 = 1%nat ->
      start = Ok tt ->
      (ensure_tile_server_running net net' start false).1.2 = true).
Proof.
  unfold ensure_tile_server_running.
  pose proof (probe_starts net) as Hp. pose proof (probe_starts net') as Hp'.
  destruct (is_tile_server_running net) as [[[]|e] evs]; cbn [fst snd negb] in *;
    try (rewrite Hp; split; [lia|done]).
  destruct start as [[]|e].
  - destruct (is_tile_server_running net') as [r evs']. cbn [fst snd] in *.
    rewrite !starts_app, Hp, Hp'. split; [cbv; lia|done].
  - cbn [fst snd]. rewrite starts_app, Hp. split; [cbv; lia|done].
Qed.

Lemma ensure_reruns_cons net net' start envs started :
  ensure_reruns ((net, net', start) :: envs) started =
    ((ensure_reruns envs (ensure_tile_server_running net net' start started).1.2).1,
     (ensure_tile_server_running net net' start started).2
       ++ (ensure_reruns envs (ensure_tile_server_running net net' start started).1.2).2).
Proof.
  simpl. destruct (ensure_tile_server_running net net' start started) as [[r st] evs].
  simpl. by destruct (ensure_reruns envs st).
Qed.

Lemma ensure_reruns_started envs :
  (ensure_reruns envs true).1 = true /\ starts (ensure_reruns envs true).2 = 0%nat.
Proof.
  induction envs as [|[[net net'] start] envs IH]; [done|].
  rewrite ensure_reruns_cons. cbn [fst snd].
  destruct (ensure_started net net' start) as [-> Hs].
  destruct IH as [IH1 IH2]. split; [done|]. by rewrite starts_app, Hs, IH2.
Qed.

End StartupFacts.

Section StartupProperties.
Import Startup StartupFacts.

(** X22.  The probe closes its socket.  Once the socket exists,
    [is_tile_server_running] closes it on every path, as the last thing it
    does and once.  It returns [True] exactly when [connect_ex] returned 0
    (and nothing raised); an exception of [settimeout] or [connect_ex]
    gives [False], and the only exceptions that leave the function are
    those of creating and of closing the socket. *)
Theorem probe_closes_its_socket (net : network) (e : exn) :
  ((exists u, new_socket net = Ok u) ->
     last (is_tile_server_running net).2 = Some EvClose
     /\ closes (is_tile_server_running net).2 = 1%nat)
  /\ ((is_tile_server_running net).1 = Ok true <->
        new_socket net = Ok tt /\ settimeout net = Ok tt
        /\ connect_ex net = Ok 0 /\ close net = Ok tt)
  /\ ((is_tile_server_running net).1 = Raise e <->
        new_socket net = Raise e
        \/ (new_socket net = Ok tt /\ close net = Raise e)).
Proof.
  unfold is_tile_server_running, finally_close.
  destruct (new_socket net) as [[]|e0]; cbn [fst snd].
  2:{ split; [intros [u ?]; done|]. split; [split; [done|intros [? _]; done]|].
      split; [intros [= ->]; by left|intros [[= ->]|[? _]]; done]. }
  destruct (settimeout net) as [[]|e1].
  2:{ destruct (close net) as [[]|e2]; cbn [fst snd].
      - split; [done|]. split; [split; [done|intros (_ & ? & _); done]|].
        split; [done|intros [?|[_ ?]]; done].
      - split; [done|]. split; [split; [done|intros (_ & ? & _); done]|].
        split; [intros [= ->]; by right|intros [?|[_ [= ->]]]; done]. }
  destruct (connect_ex net) as [code|e1].
  2:{ destruct (close net) as [[]|e2]; cbn [fst snd].
      - split; [done|]. split; [split; [done|intros (_ & _ & ? & _); done]|].
        split; [done|intros [?|[_ ?]]; done].
      - split; [done|]. split; [split; [done|intros (_ & _ & ? & _); done]|].
        split; [intros [= ->]; by right|intros [?|[_ [= ->]]]; done]. }
  destruct (close net) as [[]|e2]; cbn [fst snd].
  - split; [done|]. split.
    + split.
      * intros [= Hc]. apply Z.eqb_eq in Hc as ->. done.
      * intros (_ & _ & [= ->] & _). done.
    + split; [done|intros [?|[_ ?]]; done].
  - split; [done|]. split; [split; [done|intros (_ & _ & _ & ?); done]|].
    split; [intros [= ->]; by right|intros [?|[_ [= ->]]]; done].
Qed.

(** X23.  One server thread per session.  Over the reruns of a session, however
    the network answers the probes: once ['tile_server_started'] is in the
    session state it stays there and no thread is started again; and when
    [thread.start()] does not fail, at most one thread is started in the
    whole session. *)
Theorem session_starts_one_server_thread
    (envs : list (network * network * result unit)) (started : bool) :
  ((ensure_reruns envs true).1 = true /\ starts (ensure_reruns envs true).2 = 0%nat)
  /\ (Forall (fun env => env.2 = Ok tt) envs ->
      (starts (ensure_reruns envs started).2 <= 1)%nat).
Proof.
  split; [apply ensure_reruns_started|].
  destruct started.
  { intros _. destruct (ensure_reruns_started envs) as [_ ->]. lia. }
  induction envs as [|[[net net'] start] envs IH]; intros Hok; [cbv; lia|].
  apply Forall_cons in Hok as [Hstart Hok]. simpl in Hstart.
  rewrite ensure_reruns_cons. cbn [fst snd]. rewrite starts_app.
  destruct (ensure_not_started net net' start) as [Hle Hone].
  destruct (starts (ensure_tile_server_running net net' start false).2)
    as [|[|n]] eqn:Hn; [| |lia].
  - destruct (ensure_tile_server_running net net' start false).1.2.
    + destruct (ensure_reruns_started envs) as [_ ->]. lia.
    + specialize (IH Hok). lia.
  - rewrite (Hone eq_refl Hstart).
    destruct (ensure_reruns_started envs) as [_ ->]. lia.
Qed.

End StartupProperties.

(** A store whose [buildings] table is missing: every query fails. *)
Definition failing_query_store : Tiles.store :=
  {| Tiles.connect := Ok 1%N;
     Tiles.load_spatial := fun _ => Ok tt;
     Tiles.open_cursor := fun con => Ok con;
     Tiles.fetchone := fun _ _ =>
       Raise (StoreError "Catalog Error: Table with name buildings does not exist") |}.

(** A store with no building in the queried tile. *)
Definition empty_region_store : Tiles.store :=
  {| Tiles.connect := Ok 1%N;
     Tiles.load_spatial := fun _ => Ok tt;
     Tiles.open_cursor := fun con => Ok con;
     Tiles.fetchone := fun _ _ => Ok (Some None) |}.

Lemma get_tile_store_failure_degrades_witness :
  10 <= 12 /\
  forall libm : Libm,
    (Tiles.get_tile failing_query_store 12 2108 1354 None).1.1 = Ok Tiles.empty_tile
    /\ (Tiles.get_tile failing_query_store 12 2108 1354 None).1.2 = Some 1%N
    /\ exists evs',
         (Tiles.get_tile failing_query_store 12 2108 1354 None).2 =
           evs' ++ [Tiles.EvPrint (Tiles.LogError 12 2108 1354
                      (StoreError "Catalog Error: Table with name buildings does not exist"));
                    Tiles.EvPrint (Tiles.LogTraceback
                      (StoreError "Catalog Error: Table with name buildings does not exist"))].
Proof.
  split; [lia|]. intros libm.
  eapply (get_tile_store_failure_degrades failing_query_store 12 2108 1354
            None (Some 1%N) _ 1%N [Tiles.EvConnect; Tiles.EvLoadSpatial 1%N]).
  - lia.
  - apply TileMathFacts.tile_to_bbox_returns; lia.
  - reflexivity.
  - right. exists 1%N. split; reflexivity.
Defined.

Lemma get_tile_empty_result_is_cacheable_witness :
  10 <= 12 /\
  forall libm : Libm,
    (Tiles.get_tile empty_region_store 12 2108 1354 None).1.1
      = Ok (Tiles.tile_response [])
    /\ Tiles.tile_response [] <> Tiles.empty_tile.
Proof.
  split; [lia|]. intros libm.
  pose proof (TileMathFacts.tile_to_bbox_returns 12 2108 1354
                ltac:(lia) ltac:(lia) ltac:(lia)) as Hb.
  destruct (get_tile_empty_result_is_cacheable empty_region_store 12 2108 1354
              None (Some 1%N) _ 1%N 1%N [Tiles.EvConnect; Tiles.EvLoadSpatial 1%N]
              (Some None) ltac:(lia) Hb eq_refl eq_refl eq_refl)
    as (H & _ & _ & Hne).
  split; [by rewrite H|exact Hne].
Defined.


Lemma grid_covers_world_tile_witness :
  (0 <= 12 <= 47 /\ 0 <= 2108 < 2 ^ 12 /\ 0 <= 1354 < 2 ^ 12)
  /\ forall libm : Libm,
       exists west east north south world : Tiles.bbox,
         Tiles.tile_to_bbox 12 0 1354 = Ok west
         /\ Tiles.tile_to_bbox 12 (2 ^ 12 - 1) 1354 = Ok east
         /\ Tiles.tile_to_bbox 12 2108 0 = Ok north
         /\ Tiles.tile_to_bbox 12 2108 (2 ^ 12 - 1) = Ok south
         /\ Tiles.tile_to_bbox 0 0 0 = Ok world
         /\ Tiles.min_lon west = PyFloat.nearest (-180) 0
         /\ Tiles.min_lon world = PyFloat.nearest (-180) 0
         /\ Tiles.max_lon east = PyFloat.nearest 180 0
         /\ Tiles.max_lon world = PyFloat.nearest 180 0
         /\ Tiles.max_lat north = Tiles.max_lat world
         /\ Tiles.min_lat south = Tiles.min_lat world.
Proof.
  split; [lia|]. intros libm. apply (grid_covers_world_tile 12 2108 1354); lia.
Defined.

Lemma children_fill_parent_tile_witness :
  (0 <= 12 <= 46 /\ 0 <= 2108 < 2 ^ 12 /\ 0 <= 1354 < 2 ^ 12)
  /\ forall libm : Libm,
       let b : Tiles.bbox :=
         (TileFormulas.lon 12 2108, TileFormulas.lat 12 (1354 + 1),
          TileFormulas.lon 12 (2108 + 1), TileFormulas.lat 12 1354) in
       Tiles.tile_to_bbox 12 2108 1354 = Ok b
       /\ exists mid_lon mid_lat : float,
            Tiles.tile_to_bbox (12 + 1) (2 * 2108) (2 * 1354)
              = Ok (Tiles.min_lon b, mid_lat, mid_lon, Tiles.max_lat b)
            /\ Tiles.tile_to_bbox (12 + 1) (2 * 2108 + 1) (2 * 1354)
              = Ok (mid_lon, mid_lat, Tiles.max_lon b, Tiles.max_lat b)
            /\ Tiles.tile_to_bbox (12 + 1) (2 * 2108) (2 * 1354 + 1)
              = Ok (Tiles.min_lon b, Tiles.min_lat b, mid_lon, mid_lat)
            /\ Tiles.tile_to_bbox (12 + 1) (2 * 2108 + 1) (2 * 1354 + 1)
              = Ok (mid_lon, Tiles.min_lat b, Tiles.max_lon b, mid_lat).
Proof.
  split; [lia|]. intros libm b.
  assert (Hb : Tiles.tile_to_bbox 12 2108 1354 = Ok b)
    by (apply TileMathFacts.tile_to_bbox_returns; lia).
  split; [exact Hb|].
  apply (children_fill_parent_tile 12 2108 1354 b); [lia..|exact Hb].
Defined.


Lemma concurrent_update_view_responses_witness :
  let c := Concurrent.run JNull sample_schedule (Concurrent.init sample_updates 1) in
  rtc (Concurrent.step JNull) (Concurrent.init sample_updates 1) c
  /\ exists w,
       Concurrent.c_writers c !! 0%nat = Some w
       /\ Concurrent.w_pc w = Concurrent.WDone (Ok (jsonify Register.ok_body 200))
       /\ exists data, sample_updates !! 0%nat = Some data
            /\ forall cs, Ok (jsonify Register.ok_body 200) = (Register.update_view data cs).1.
Proof.
  intros c.
  assert (Hreach : rtc (Concurrent.step JNull) (Concurrent.init sample_updates 1) c)
    by apply ConcurrentFacts.run_reachable.
  split; [exact Hreach|].
  destruct (Concurrent.c_writers c !! 0%nat) as [w|] eqn:Hw;
    [|vm_compute in Hw; discriminate Hw].
  assert (Hpc : Concurrent.w_pc w = Concurrent.WDone (Ok (jsonify Register.ok_body 200))).
  { vm_compute in Hw. injection Hw as <-. reflexivity. }
  exists w. split; [reflexivity|]. split; [exact Hpc|].
  exact (concurrent_update_view_responses JNull sample_updates 1 c 0 w _ Hreach Hw Hpc).
Defined.

Lemma get_view_bounds_value_witness :
  JInt 7 <> JNull
  /\ Polling.get_view_bounds
       (Ok (Polling.Reply true (Ok (JObj {[ "bounds" := JInt 7 ]})))) = JInt 7.
Proof.
  split; [discriminate|].
  apply (get_view_bounds_value _ (JInt 7)); [discriminate|].
  eexists. split; [reflexivity|]. apply lookup_singleton_eq.
Defined.

Lemma view_without_zoom_stops_dashboard_witness :
  let b : gmap string json :=
    {[ "north" := JInt 53; "south" := JInt 52; "east" := JInt 6; "west" := JInt 5 ]} in
  let m : gmap string json := {[ "bounds" := JObj b ]} in
  (m !! "bounds" = Some (JObj b) /\ b <> ∅ /\ dict_get m "zoom" = JNull)
  /\ (Register.update_view (JObj m) Register.current_stats_init).1
       = Ok (jsonify Register.ok_body 200)
  /\ exists r : Polling.reply,
       Polling.received
         (Register.get_bounds (Register.update_view (JObj m) Register.current_stats_init).2)
         = Some r
       /\ Dashboard.main sample_stats_store (Polling.get_view_bounds (Ok r))
            Dashboard.session_init = Raise TypeError.
Proof.
  intros b m.
  assert (Hb : m !! "bounds" = Some (JObj b)) by reflexivity.
  assert (Hne : b <> ∅).
  { intros H. apply (f_equal (fun x : gmap string json => x !! "north")) in H.
    vm_compute in H. discriminate H. }
  assert (Hz : dict_get m "zoom" = JNull) by reflexivity.
  split; [by repeat split|].
  destruct (view_without_zoom_stops_dashboard m b Register.current_stats_init
              sample_stats_store Dashboard.session_init Hb Hne Hz)
    as (Hok & r & Hr & _ & _ & Hmain).
  split; [exact Hok|]. exists r. split; [exact Hr|exact Hmain].
Defined.

(** A dataset whose file cannot be opened. *)
Definition unreachable_stats_store : Dashboard.stats_store :=
  {| Dashboard.stats_connect :=
       Raise (StoreError "IO Error: Cannot open file nl_buildings.duckdb");
     Dashboard.stats_load_spatial := Ok tt;
     Dashboard.stats_fetchone := fun _ => Ok None |}.

Lemma query_stats_store_failure_gives_zeros_witness :
  let m : gmap string json :=
    {[ "north" := JInt 53; "south" := JInt 52; "east" := JInt 6; "west" := JInt 5 ]} in
  m <> ∅
  /\ exists evs,
       Dashboard.query_stats unreachable_stats_store (JObj m)
         = Ok (Dashboard.no_stats,
               evs ++ [Dashboard.EvPrint
                         (StoreError "IO Error: Cannot open file nl_buildings.duckdb")])
       /\ (Dashboard.queries
             (evs ++ [Dashboard.EvPrint
                        (StoreError "IO Error: Cannot open file nl_buildings.duckdb")])
           <= 1)%nat.
Proof.
  intros m.
  assert (Hne : m <> ∅).
  { intros H. apply (f_equal (fun x : gmap string json => x !! "north")) in H.
    vm_compute in H. discriminate H. }
  split; [exact Hne|].
  apply (query_stats_store_failure_gives_zeros unreachable_stats_store m _ Hne).
  left. reflexivity.
Defined.

(** A dataset with no building in the queried region: [COUNT] gives 0 and
    the sum of the areas 0.0. *)
Definition empty_region_stats_store : Dashboard.stats_store :=
  {| Dashboard.stats_connect := Ok tt;
     Dashboard.stats_load_spatial := Ok tt;
     Dashboard.stats_fetchone := fun _ =>
       Ok (Some (JInt 0, JFloat (S754_zero false))) |}.

Lemma query_stats_values_witness :
  let m : gmap string json :=
    {[ "north" := JInt 53; "south" := JInt 52; "east" := JInt 6; "west" := JInt 5 ]} in
  let evs :=
    [Dashboard.EvConnect; Dashboard.EvLoadSpatial;
     Dashboard.EvQuery (StatsFacts.stats_query_of m)] in
  Dashboard.query_stats empty_region_stats_store (JObj m)
    = Ok (Dashboard.Stats (JInt 0) (JInt 0), evs)
  /\ (truthy (JInt 0) = true \/ JInt 0 = JInt 0).
Proof.
  intros m evs.
  assert (H : Dashboard.query_stats empty_region_stats_store (JObj m)
              = Ok (Dashboard.Stats (JInt 0) (JInt 0), evs))
    by (vm_compute; reflexivity).
  split; [exact H|].
  destruct (query_stats_values empty_region_stats_store (JObj m) _ evs H) as [Hc _].
  exact Hc.
Defined.

(** The viewport of a map over Utrecht at zoom 14, as the map posts it. *)
Definition sample_posted_bounds : gmap string json :=
  {[ "north" := JInt 53; "south" := JInt 52; "east" := JInt 6; "west" := JInt 5 ]}.

Definition sample_post : gmap string json :=
  {[ "bounds" := JObj sample_posted_bounds; "zoom" := JInt 14 ]}.

Definition sample_polled : json :=
  JObj (<["zoom" := JInt 14]> sample_posted_bounds).

Definition sample_posted_rerun : Dashboard.session * list Dashboard.event :=
  Eval vm_compute in
    match Dashboard.main sample_stats_store sample_polled Dashboard.session_init with
    | Ok r => r
    | Raise _ => (Dashboard.session_init, [])
    end.

Lemma dashboard_queries_posted_viewport_witness :
  (sample_post !! "bounds" = Some (JObj sample_posted_bounds)
   /\ sample_posted_bounds <> ∅)
  /\ Dashboard.EvQuery (StatsFacts.stats_query_of sample_posted_bounds)
       ∈ sample_posted_rerun.2
  /\ Dashboard.queries sample_posted_rerun.2 = 1%nat.
Proof.
  assert (Hb : sample_post !! "bounds" = Some (JObj sample_posted_bounds))
    by reflexivity.
  assert (Hne : sample_posted_bounds <> ∅).
  { intros H. apply (f_equal (fun x : gmap string json => x !! "north")) in H.
    vm_compute in H. discriminate H. }
  split; [by split|].
  assert (Hr : Polling.received
                 (Register.get_bounds
                    (Register.update_view (JObj sample_post) Register.current_stats_init).2)
               = Some (Polling.Reply true (Ok (JObj {[ "bounds" := sample_polled ]}))))
    by (vm_compute; reflexivity).
  assert (Hp : Polling.get_view_bounds
                 (Ok (Polling.Reply true (Ok (JObj {[ "bounds" := sample_polled ]}))))
               = sample_polled) by apply ViewportFacts.poll_bounds.
  assert (Hmain : Dashboard.main sample_stats_store
                    (Polling.get_view_bounds
                       (Ok (Polling.Reply true (Ok (JObj {[ "bounds" := sample_polled ]})))))
                    Dashboard.session_init
                  = Ok (sample_posted_rerun.1, sample_posted_rerun.2))
    by (rewrite Hp; vm_compute; reflexivity).
  destruct (dashboard_queries_posted_viewport sample_post sample_posted_bounds
              Register.current_stats_init sample_stats_store _
              Dashboard.session_init _ _ Hb Hne Hr Hmain) as [_ H].
  destruct (H sample_posted_rerun.1.(Dashboard.last_bounds)) as (Hin & Hq & _).
  - rewrite Hp. vm_compute. reflexivity.
  - vm_compute. reflexivity.
  - reflexivity.
  - reflexivity.
  - split; [exact Hin|exact Hq].
Defined.
